(** * OpenAPI MCP Builder API: a shallow embedding of [mcp-server/src/main.py]

    The module serves [GET /generate] and [GET /health].  [/generate] fetches
    an OpenAPI document, hands it to the FastMCP SDK together with the
    callback [customize_components], mounts the resulting server under
    [/mcp/<server_id>] and records it in [RUNNING_SERVERS].

    Python values are embedded as the inductive [pyval]; code that can raise
    returns a [result]; code that mutates its arguments and can raise runs in
    a small state-and-exception monad.  Calls into third-party packages
    (httpx, FastMCP, yaml) whose behaviour the module does not fix are the
    fields of the class [Packages]. *)

From Stdlib Require Import ZArith Ascii String Strings.Byte.
From stdpp Require Import base gmap strings list.

#[local] Set Warnings "-register-all,-clear-no-such-hyp".
Local Open Scope Z_scope.

(* ===================================================================== *)
(** ** Python values                                                      *)
(* ===================================================================== *)

(** The values [json.loads] and [yaml.safe_load] produce.  A [dict] keeps its
    items in insertion order, so it is an association list; its keys are
    strings, as in JSON (a YAML key of another type stands as its [str()],
    which is what the module reads of it).  [dict_get] reads the first
    binding of a key and [dict_set] overwrites it in place or appends.  A
    float is a finite decimal [m * 10^e]. *)
Inductive pyval : Type :=
  | PyNone
  | PyBool (b : bool)
  | PyInt (z : Z)
  | PyFloat (m e : Z)
  | PyStr (s : string)
  | PyList (l : list pyval)
  | PyDict (d : list (string * pyval)).

Abbreviation pydict := (list (string * pyval)).

Fixpoint dict_get (d : pydict) (k : string) : option pyval :=
  match d with
  | [] => None
  | (k', v) :: d' => if String.eqb k' k then Some v else dict_get d' k
  end.

(** [k in d] *)
Definition dict_contains (d : pydict) (k : string) : bool :=
  match dict_get d k with Some _ => true | None => false end.

(** [d[k] = v] *)
Fixpoint dict_set (d : pydict) (k : string) (v : pyval) : pydict :=
  match d with
  | [] => [(k, v)]
  | (k', v') :: d' =>
      if String.eqb k' k then (k', v) :: d' else (k', v') :: dict_set d' k v
  end.

(** [d.keys()] *)
Definition dict_keys (d : pydict) : list string := map fst d.

(** [d.setdefault(k, default)]: the value now stored under [k], and the
    dictionary after the call. *)
Definition dict_setdefault (d : pydict) (k : string) (default : pyval)
  : pyval * pydict :=
  match dict_get d k with
  | Some v => (v, d)
  | None => (default, dict_set d k default)
  end.

(** Truth value of an object, as tested by [if x], [x or y], [not x]. *)
Definition truthy (v : pyval) : bool :=
  match v with
  | PyNone => false
  | PyBool b => b
  | PyInt z => negb (z =? 0)
  | PyFloat m _ => negb (m =? 0)
  | PyStr s => negb (String.eqb s "")
  | PyList l => match l with [] => false | _ => true end
  | PyDict d => match d with [] => false | _ => true end
  end.

(** [x or y] *)
Definition py_or (x y : pyval) : pyval := if truthy x then x else y.

Definition isinstance_list (v : pyval) : bool :=
  match v with PyList _ => true | _ => false end.
Definition isinstance_dict (v : pyval) : bool :=
  match v with PyDict _ => true | _ => false end.

(* ===================================================================== *)
(** ** Exceptions                                                         *)
(* ===================================================================== *)

(** Every exception below is an instance of [Exception]; [exn_str] is
    [str(e)], the text an f-string interpolates.  The texts of the
    interpreter's own messages follow CPython and no theorem depends on
    their wording. *)
Inductive exn_class : Type :=
  | KeyError | TypeError | AttributeError | IndexError | ValueError
  | LibraryError.

Record exn : Type := Exn { exn_type : exn_class; exn_str : string }.

Inductive result (A : Type) : Type :=
  | Ok (a : A)
  | Raise (e : exn).
Arguments Ok {A} a.
Arguments Raise {A} e.

Definition rbind {A B : Type} (r : result A) (k : A -> result B) : result B :=
  match r with
  | Ok a => k a
  | Raise e => Raise e
  end.

Declare Scope result_scope.
Delimit Scope result_scope with result.
Notation "x <- r ;; k" := (rbind r (fun x => k))
  (at level 100, r at next level, right associativity) : result_scope.

Definition is_KeyError (e : exn) : bool :=
  match exn_type e with KeyError => true | _ => false end.

Definition is_Ok {A : Type} (r : result A) : bool :=
  match r with Ok _ => true | Raise _ => false end.

(** Name of a value's class, as it appears in interpreter messages. *)
Definition type_name (v : pyval) : string :=
  match v with
  | PyNone => "NoneType"
  | PyBool _ => "bool"
  | PyInt _ => "int"
  | PyFloat _ _ => "float"
  | PyStr _ => "str"
  | PyList _ => "list"
  | PyDict _ => "dict"
  end.

(** [o.get(k)] and [o.get(k, default)]: only a [dict] has the method. *)
Definition py_get (o : pyval) (k : string) (default : pyval) : result pyval :=
  match o with
  | PyDict d => Ok (match dict_get d k with Some v => v | None => default end)
  | _ => Raise (Exn AttributeError
                  ("'" +:+ type_name o +:+ "' object has no attribute 'get'"))
  end.

(** [o[0]] *)
Definition py_first (o : pyval) : result pyval :=
  match o with
  | PyList (x :: _) => Ok x
  | PyList [] => Raise (Exn IndexError "list index out of range")
  | PyDict d =>
      Raise (Exn KeyError "0")
  | PyStr s =>
      match s with
      | String c _ => Ok (PyStr (String c EmptyString))
      | EmptyString => Raise (Exn IndexError "string index out of range")
      end
  | _ => Raise (Exn TypeError
                  ("'" +:+ type_name o +:+ "' object is not subscriptable"))
  end.

(* ===================================================================== *)
(** ** Strings                                                            *)
(* ===================================================================== *)

(** A [str] is embedded as the string of its UTF-8 bytes.  The characters the
    module searches for, strips and lower-cases are ASCII, and no UTF-8
    multi-byte sequence contains an ASCII byte, so the byte-wise functions
    below agree with the code-point-wise ones of Python; [lower] maps only
    [A-Z]. *)

Definition ascii_in (c : ascii) (lo hi : N) : bool :=
  ((lo <=? N_of_ascii c) && (N_of_ascii c <=? hi))%N.

Definition ascii_is (c d : ascii) : bool := Ascii.eqb c d.

Definition ascii_lower (c : ascii) : ascii :=
  if ascii_in c 65 90 then ascii_of_N (N_of_ascii c + 32) else c.

(** [s.lower()] *)
Fixpoint lower (s : string) : string :=
  match s with
  | EmptyString => EmptyString
  | String c s' => String (ascii_lower c) (lower s')
  end.

Fixpoint string_forall (p : ascii -> bool) (s : string) : bool :=
  match s with
  | EmptyString => true
  | String c s' => p c && string_forall p s'
  end.

Fixpoint string_exists (p : ascii -> bool) (s : string) : bool :=
  match s with
  | EmptyString => false
  | String c s' => p c || string_exists p s'
  end.

(** [s.lstrip(chars)] for the set of characters [p] *)
Fixpoint lstrip (p : ascii -> bool) (s : string) : string :=
  match s with
  | EmptyString => EmptyString
  | String c s' => if p c then lstrip p s' else s
  end.

(** [s.rstrip(chars)] for the set of characters [p]: every trailing
    character in the set goes, not only the last one. *)
Fixpoint rstrip (p : ascii -> bool) (s : string) : string :=
  match s with
  | EmptyString => EmptyString
  | String c s' =>
      match rstrip p s' with
      | EmptyString => if p c then EmptyString else String c EmptyString
      | r => String c r
      end
  end.

(** Deleting every character of the set [p], as a chain of
    [s.replace(b, "")] does for single characters [b]. *)
Fixpoint string_remove (p : ascii -> bool) (s : string) : string :=
  match s with
  | EmptyString => EmptyString
  | String c s' => if p c then string_remove p s' else String c (string_remove p s')
  end.

(** Cut [s] at the first character in the set [p]: the part before it, and
    the part from it on (empty when there is none). *)
Fixpoint string_break (p : ascii -> bool) (s : string) : string * string :=
  match s with
  | EmptyString => (EmptyString, EmptyString)
  | String c s' =>
      if p c then (EmptyString, s)
      else let '(a, b) := string_break p s' in (String c a, b)
  end.

Fixpoint string_prefix (a s : string) : bool :=
  match a, s with
  | EmptyString, _ => true
  | String c a', String d s' => Ascii.eqb c d && string_prefix a' s'
  | String _ _, EmptyString => false
  end.

(** [a in s] for two strings *)
Fixpoint string_contains (a s : string) : bool :=
  string_prefix a s ||
  match s with
  | EmptyString => false
  | String _ s' => string_contains a s'
  end.

(* ===================================================================== *)
(** ** The objects of the FastMCP SDK the module touches                  *)
(* ===================================================================== *)

(** [HTTPRoute]: the fields read or written by [main.py]. *)
Record HTTPRoute : Type := {
  path : string;
  method : string;
  parameter_map : pydict;
  flat_param_schema : pydict;
}.

(** The components [FastMCP.from_openapi] hands to [mcp_component_fn]; only
    [OpenAPITool] passes [isinstance(component, OpenAPITool)]. *)
Inductive component_class : Type :=
  | OpenAPITool | OpenAPIResource | OpenAPIResourceTemplate.

Record Component : Type := {
  component_type : component_class;
  tags : gset string;
  parameters : pydict;
}.

(** [mcp_component_fn(route, component)] mutates the two objects it is
    given and may raise: the pair is threaded as state, and the state
    reached when an exception is raised is kept. *)
Definition mutator (A : Type) : Type :=
  HTTPRoute * Component -> result A * (HTTPRoute * Component).

Definition mret {A : Type} (a : A) : mutator A := fun st => (Ok a, st).

Definition mbind {A B : Type} (m : mutator A) (k : A -> mutator B)
  : mutator B :=
  fun st =>
    match m st with
    | (Ok a, st') => k a st'
    | (Raise e, st') => (Raise e, st')
    end.

Definition mlift {A : Type} (r : result A) : mutator A := fun st => (r, st).

Definition get_route : mutator HTTPRoute := fun st => (Ok (fst st), st).
Definition get_component : mutator Component := fun st => (Ok (snd st), st).
Definition put_route (r : HTTPRoute) : mutator unit :=
  fun st => (Ok tt, (r, snd st)).
Definition put_component (c : Component) : mutator unit :=
  fun st => (Ok tt, (fst st, c)).

Declare Scope mutator_scope.
Delimit Scope mutator_scope with mutator.
Notation "x <- m ;; k" := (mbind m (fun x => k))
  (at level 100, m at next level, right associativity) : mutator_scope.
Notation "m ;;; k" := (mbind m (fun _ => k))
  (at level 100, right associativity) : mutator_scope.

Definition set_tags (c : Component) (t : gset string) : Component :=
  {| component_type := component_type c; tags := t;
     parameters := parameters c |}.
Definition set_parameters (c : Component) (p : pydict) : Component :=
  {| component_type := component_type c; tags := tags c; parameters := p |}.
Definition set_parameter_map (r : HTTPRoute) (m : pydict) : HTTPRoute :=
  {| path := path r; method := method r; parameter_map := m;
     flat_param_schema := flat_param_schema r |}.
Definition set_flat_param_schema (r : HTTPRoute) (s : pydict) : HTTPRoute :=
  {| path := path r; method := method r; parameter_map := parameter_map r;
     flat_param_schema := s |}.

(** What [main.py] calls and does not define.  [check_bracketed_netloc] and
    [checknetloc_nfkc] are the two validations [urllib.parse.urlsplit] runs
    on a netloc with a bracketed host, respectively with non-ASCII
    characters; [py_repr] renders a value that is not a [str];
    [AsyncClient base_url] is [httpx.AsyncClient(base_url=base_url)];
    [from_openapi spec client name fn] is [FastMCP.from_openapi(spec, client,
    name=name, mcp_component_fn=fn)]; [http_app mcp path] is
    [mcp.http_app(path=path)]; [static_files] is the [StaticFiles]
    application of the [web] directory, when the directory exists and the
    application can be built. *)
Class Packages : Type := {
  check_bracketed_netloc : string -> result unit;
  checknetloc_nfkc : string -> result unit;
  py_repr : pyval -> string;
  Response : Type;
  raise_for_status : Response -> result unit;
  resp_json : Response -> result pyval;
  resp_text : Response -> string;
  json_loads : string -> result pyval;
  yaml_safe_load : option (string -> result pyval);
  HttpClient : Type;
  AsyncClient : string -> result HttpClient;
  FastMCP : Type;
  ASGIApp : Type;
  from_openapi : pyval -> HttpClient -> string -> mutator unit -> result FastMCP;
  http_app : FastMCP -> string -> ASGIApp;
  static_files : option ASGIApp;
}.

(* ===================================================================== *)
(** ** [urllib.parse.urlparse]: scheme and netloc                         *)
(* ===================================================================== *)

Record ParseResult : Type := { scheme : string; netloc : string }.

Definition is_c0_control_or_space (c : ascii) : bool := ascii_in c 0 32.
Definition is_unsafe_url_byte (c : ascii) : bool :=
  ascii_is c "009" || ascii_is c "013" || ascii_is c "010".
Definition is_ascii_alpha (c : ascii) : bool :=
  ascii_in c 65 90 || ascii_in c 97 122.
Definition is_scheme_char (c : ascii) : bool :=
  is_ascii_alpha c || ascii_in c 48 57 ||
  ascii_is c "+" || ascii_is c "-" || ascii_is c ".".
Definition is_netloc_delim (c : ascii) : bool :=
  ascii_is c "/" || ascii_is c "?" || ascii_is c "#".
Definition isascii (s : string) : bool :=
  string_forall (fun c => ascii_in c 0 127) s.

(** [i = url.find(':')]; when [i > 0], [url[0]] is an ASCII letter and
    [url[:i]] consists of scheme characters, the scheme is [url[:i].lower()]
    and the rest is [url[i+1:]]. *)
Definition split_scheme (url : string) : string * string :=
  match string_break (fun c => ascii_is c ":") url with
  | (String c0 pre, String _ post) =>
      if is_ascii_alpha c0 && string_forall is_scheme_char (String c0 pre)
      then (lower (String c0 pre), post)
      else (EmptyString, url)
  | _ => (EmptyString, url)
  end.

Section Urlparse.
Context `{Packages}.
Local Open Scope result_scope.

Definition urlparse (url : string) : result ParseResult :=
  let url := lstrip is_c0_control_or_space url in
  let url := string_remove is_unsafe_url_byte url in
  let '(scheme, url) := split_scheme url in
  netloc <-
    match url with
    | String "/" (String "/" rest) =>
        let '(netloc, _) := string_break is_netloc_delim rest in
        let has_open := string_exists (fun c => ascii_is c "[") netloc in
        let has_close := string_exists (fun c => ascii_is c "]") netloc in
        if (has_open && negb has_close) || (has_close && negb has_open)
        then Raise (Exn ValueError "Invalid IPv6 URL")
        else
          _ <- (if has_open && has_close
                then check_bracketed_netloc netloc else Ok tt) ;;
          Ok netloc
    | _ => Ok EmptyString
    end ;;
  _ <- (if String.eqb netloc "" || isascii netloc
        then Ok tt else checknetloc_nfkc netloc) ;;
  Ok {| scheme := scheme; netloc := netloc |}.

(* =================================================================== *)
(** ** [_derive_base_url]                                               *)
(* =================================================================== *)

(** The body of the [try]: [Ok (Some url)] is [return url], [Ok None] is
    falling out of the block. *)
Definition servers_url (openapi_spec : pyval) : result (option string) :=
  got <- py_get openapi_spec "servers" PyNone ;;
  let servers := py_or got (PyList []) in
  if truthy servers && isinstance_list servers then
    first <- py_first servers ;;
    url <- (if isinstance_dict first
            then py_get first "url" PyNone else Ok PyNone) ;;
    match url with
    | PyStr u => if truthy url then Ok (Some u) else Ok None
    | _ => Ok None
    end
  else Ok None.

Definition origin_of (openapi_url : string) : result string :=
  parsed <- urlparse openapi_url ;;
  Ok (scheme parsed +:+ "://" +:+ netloc parsed).

Definition _derive_base_url (openapi_spec : pyval) (openapi_url : string)
  : result string :=
  match servers_url openapi_spec with
  | Ok (Some url) => Ok url
  | Ok None => origin_of openapi_url
  | Raise _ => origin_of openapi_url
  end.

End Urlparse.

(* ===================================================================== *)
(** ** [SchemaPath]                                                       *)
(* ===================================================================== *)

(** [SchemaPath.from_dict(d)] wraps [d]; [spec / k1 / ... / kn] names the
    chain of subscriptions [d[k1]...[kn]], and [.open()] resolves it to the
    stored value: a missing key raises [KeyError], subscripting a value that
    is not a [dict] with a string raises [TypeError].  References ([$ref])
    are not followed. *)
Definition SchemaPath : Type := pyval.

Definition SchemaPath_from_dict (d : pyval) : SchemaPath := d.

Fixpoint SchemaPath_open (contents : pyval) (parts : list string)
  : result pyval :=
  match parts with
  | [] => Ok contents
  | k :: parts' =>
      match contents with
      | PyDict d =>
          match dict_get d k with
          | Some v => SchemaPath_open v parts'
          | None => Raise (Exn KeyError ("'" +:+ k +:+ "'"))
          end
      | _ => Raise (Exn TypeError "indices must be integers or slices, not str")
      end
  end.

(* ===================================================================== *)
(** ** [get_security_schemes_for_route]                                   *)
(* ===================================================================== *)

(** [for name in req.keys(): schemes.add(str(name))] under
    [if isinstance(req, dict)] *)
Definition add_requirement (schemes : gset string) (req : pyval)
  : gset string :=
  match req with
  | PyDict d => foldl (fun acc name => acc ∪ {[name]}) schemes (dict_keys d)
  | _ => schemes
  end.

(** [for req in sec: ...] under [if isinstance(sec, list)] *)
Definition add_requirements (schemes : gset string) (sec : pyval)
  : gset string :=
  match sec with
  | PyList reqs => foldl add_requirement schemes reqs
  | _ => schemes
  end.

Definition operation_security_path (route : HTTPRoute) : list string :=
  ["paths"; path route; lower (method route); "security"].

Definition get_security_schemes_for_route (spec : SchemaPath)
  (route : HTTPRoute) : result (gset string) :=
  let schemes : gset string := ∅ in
  (* 1) Operation-level security *)
  match SchemaPath_open spec (operation_security_path route) with
  | Ok sec => Ok (add_requirements schemes sec)
  | Raise e =>
      if is_KeyError e then
        (* 2) Top-level security *)
        match SchemaPath_open spec ["security"] with
        | Ok sec => Ok (add_requirements schemes sec)
        | Raise e' => if is_KeyError e' then Ok schemes else Raise e'
        end
      else Raise e
  end.

(* ===================================================================== *)
(** ** [customize_components]                                             *)
(* ===================================================================== *)

Definition AUTHORIZATION_SCHEMA : pyval :=
  PyDict [("type", PyStr "string");
          ("description",
           PyStr "Authorization header (e.g., 'Bearer <token>').")].

Definition AUTHORIZATION_HEADER : pyval :=
  PyDict [("location", PyStr "header");
          ("openapi_name", PyStr "Authorization")].

Definition DEFAULT_PARAMETERS : pydict :=
  [("type", PyStr "object"); ("properties", PyDict [])].

(** [name in container], for a string [name] *)
Definition py_contains (container : pyval) (name : string) : result bool :=
  match container with
  | PyDict d => Ok (dict_contains d name)
  | PyList l =>
      Ok (existsb (fun v => match v with
                            | PyStr s => String.eqb s name
                            | _ => false
                            end) l)
  | PyStr s => Ok (string_contains name s)
  | _ => Raise (Exn TypeError
                  ("argument of type '" +:+ type_name container +:+
                   "' is not iterable"))
  end.

(** [container[name] = v], for a string [name]: the container afterwards *)
Definition py_setitem (container : pyval) (name : string) (v : pyval)
  : result pyval :=
  match container with
  | PyDict d => Ok (PyDict (dict_set d name v))
  | PyList _ =>
      Raise (Exn TypeError "list indices must be integers or slices, not str")
  | _ => Raise (Exn TypeError
                  ("'" +:+ type_name container +:+
                   "' object does not support item assignment"))
  end.

(** [params] is [component.parameters] itself when that is non-empty and a
    new dictionary otherwise, and [props] is the dictionary stored in it:
    writing [props["Authorization"]] changes [params["properties"]].  The
    writes made through [params] before [component.parameters = params]
    reach the component only with that assignment here; on the paths that
    raise before it, the one write made, [setdefault], has found its key
    and changed nothing.  The schema of the route has no such assignment,
    so each write to it is a [put_route]. *)
Definition customize_components (spec : SchemaPath) : mutator unit :=
  (
    (* Tag all components *)
    component <- get_component ;;
    put_component (set_tags component (tags component ∪ {["openapi"]})) ;;;
    route <- get_route ;;
    secured_schemes <- mlift (get_security_schemes_for_route spec route) ;;
    if decide (secured_schemes = ∅) then mret tt else
    component <- get_component ;;
    match component_type component with
    | OpenAPITool =>
        let params :=
          if truthy (PyDict (parameters component))
          then parameters component else DEFAULT_PARAMETERS in
        let '(props, params) :=
          dict_setdefault params "properties" (PyDict []) in
        present <- mlift (py_contains props "Authorization") ;;
        params <-
          (if present then mret params else
             props' <- mlift (py_setitem props "Authorization"
                                AUTHORIZATION_SCHEMA) ;;
             mret (dict_set params "properties" props')) ;;
        put_component (set_parameters component params) ;;;
        route <- get_route ;;
        (if dict_contains (parameter_map route) "Authorization" then mret tt
         else put_route (set_parameter_map route
                           (dict_set (parameter_map route) "Authorization"
                              AUTHORIZATION_HEADER))) ;;;
        route <- get_route ;;
        let '(flat_props, schema) :=
          dict_setdefault (flat_param_schema route) "properties" (PyDict []) in
        put_route (set_flat_param_schema route schema) ;;;
        present <- mlift (py_contains flat_props "Authorization") ;;
        if present then mret tt else
          flat_props' <- mlift (py_setitem flat_props "Authorization"
                                  AUTHORIZATION_SCHEMA) ;;
          route <- get_route ;;
          put_route (set_flat_param_schema route
                       (dict_set schema "properties" flat_props'))
    | _ => mret tt
    end
  )%mutator.

(* ===================================================================== *)
(** ** The application                                                    *)
(* ===================================================================== *)

Definition hex_digit (n : N) : ascii :=
  if (n <? 10)%N then ascii_of_N (48 + n) else ascii_of_N (87 + n).

Definition hex_of_byte (b : byte) : string :=
  String (hex_digit (Byte.to_N b / 16))
    (String (hex_digit (Byte.to_N b mod 16)) EmptyString).

(** [binascii.hexlify(bs).decode('ascii')] *)
Definition hexlify (bs : list byte) : string :=
  foldr (fun b s => hex_of_byte b +:+ s) EmptyString bs.

(** [str(request.base_url)] is all [generate] reads of the request. *)
Record Request : Type := { base_url : string }.

(** What FastAPI sends for a handler that raises [HTTPException], and for
    one that returns a dictionary (status 200, the dictionary as JSON). *)
Inductive Reply : Type :=
  | HTTPException (status_code : Z) (detail : string)
  | Returned (body : pydict).

Definition reply_status (r : Reply) : Z :=
  match r with
  | HTTPException status_code _ => status_code
  | Returned _ => 200
  end.

Section Application.
Context `{Packages}.
Local Open Scope result_scope.

(** [str(x)] *)
Definition py_str (v : pyval) : string :=
  match v with
  | PyStr s => s
  | _ => py_repr v
  end.

Definition _build_mcp_from_openapi (openapi_spec : pyval)
  (openapi_url : string) : result FastMCP :=
  let spec := SchemaPath_from_dict openapi_spec in
  base_url <- _derive_base_url openapi_spec openapi_url ;;
  client <- AsyncClient base_url ;;
  info <- py_get openapi_spec "info" (PyDict []) ;;
  title <- py_get info "title" PyNone ;;
  let name := py_or title (PyStr ("MCP from " +:+ base_url)) in
  from_openapi openapi_spec client (py_str name) (customize_components spec).

(** What one request meets outside the process: the answer of the network
    to [http.get(url)], and the bytes [secrets.token_bytes(n)] draws. *)
Record World : Type := {
  http_get : string -> result Response;
  token_bytes : nat -> list byte;
}.

(** [secrets.token_hex(nbytes)] *)
Definition token_hex (w : World) (nbytes : nat) : string :=
  hexlify (token_bytes w nbytes).

Record ServerEntry : Type := { mount_path : string; mcp : FastMCP }.

(** The state of the process: the registry, and the sub-applications
    [app.mount] has appended to the routes of [app], oldest first (the two
    handlers themselves are routes fixed at import). *)
Record App : Type := {
  RUNNING_SERVERS : gmap string ServerEntry;
  mounts : list (string * ASGIApp);
}.

(** [app.mount(path, sub)] *)
Definition app_mount (app : App) (path : string) (sub : ASGIApp) : App :=
  {| RUNNING_SERVERS := RUNNING_SERVERS app;
     mounts := mounts app ++ [(path, sub)] |}.

(** [RUNNING_SERVERS[server_id] = entry] *)
Definition register (app : App) (server_id : string) (entry : ServerEntry)
  : App :=
  {| RUNNING_SERVERS := <[server_id := entry]> (RUNNING_SERVERS app);
     mounts := mounts app |}.

(** The first [try] of [generate]. *)
Definition fetch_openapi_spec (w : World) (openapi_url : string)
  : result pyval :=
  resp <- http_get w openapi_url ;;
  _ <- raise_for_status resp ;;
  match resp_json resp with
  | Ok openapi_spec => Ok openapi_spec
  | Raise _ =>
      (* Try YAML, then JSON from text *)
      match yaml_safe_load with
      | Some safe_load =>
          match safe_load (resp_text resp) with
          | Ok openapi_spec => Ok openapi_spec
          | Raise _ => json_loads (resp_text resp)
          end
      | None => json_loads (resp_text resp)
      end
  end.

Definition generate (w : World) (request : Request) (openapi_url : string)
  (app : App) : Reply * App :=
  (* Fetch OpenAPI spec *)
  match fetch_openapi_spec w openapi_url with
  | Raise e =>
      (HTTPException 400 ("Failed to fetch OpenAPI: " +:+ exn_str e), app)
  | Ok openapi_spec =>
      (* Build MCP server *)
      match _build_mcp_from_openapi openapi_spec openapi_url with
      | Raise e =>
          (HTTPException 400 ("Failed to build MCP: " +:+ exn_str e), app)
      | Ok mcp =>
          (* Mount MCP ASGI app under this FastAPI app *)
          let server_id := "srv-" +:+ token_hex w 4 in
          let mount_path := "/mcp/" +:+ server_id in
          let mcp_app := http_app mcp "/" in
          let app := app_mount app mount_path mcp_app in
          let app :=
            register app server_id
              {| mount_path := mount_path; mcp := mcp |} in
          let base := rstrip (fun c => ascii_is c "/") (base_url request) in
          let mcp_url := base +:+ mount_path +:+ "/" in
          (Returned [("server_id", PyStr server_id);
                     ("mcp_url", PyStr mcp_url)], app)
      end
  end.

Definition health (app : App) : Reply * App :=
  (Returned [("status", PyStr "ok")], app).

(** The requests the two handlers serve, and a run of them on one
    process. *)
Inductive Call : Type :=
  | GetGenerate (w : World) (request : Request) (openapi_url : string)
  | GetHealth.

Definition serve (c : Call) (app : App) : Reply * App :=
  match c with
  | GetGenerate w request openapi_url => generate w request openapi_url app
  | GetHealth => health app
  end.

Fixpoint serve_all (cs : list Call) (app : App) : list Reply * App :=
  match cs with
  | [] => ([], app)
  | c :: cs' =>
      let '(r, app') := serve c app in
      let '(rs, app'') := serve_all cs' app' in
      (r :: rs, app'')
  end.

(** The process as [main.py] leaves it at import: an empty registry, and
    the static UI mounted at [/] when there is one. *)
Definition initial_app : App :=
  {| RUNNING_SERVERS := ∅;
     mounts := match static_files with
               | Some ui => [("/", ui)]
               | None => []
               end |}.

End Application.

(* ===================================================================== *)
(** ** Sample documents and a sample environment                          *)
(* ===================================================================== *)

Module Sample.

(** Packages that accept every netloc, answer a request with the document
    itself, and build as server the name and the document. *)
Definition packages : Packages := {|
  check_bracketed_netloc := fun _ => Ok tt;
  checknetloc_nfkc := fun _ => Ok tt;
  py_repr := fun v => "<" +:+ type_name v +:+ ">";
  Response := pyval;
  raise_for_status := fun _ => Ok tt;
  resp_json := fun doc => Ok doc;
  resp_text := fun _ => EmptyString;
  json_loads := fun _ => Raise (Exn ValueError "Expecting value");
  yaml_safe_load := None;
  HttpClient := string;
  AsyncClient := fun base_url => Ok base_url;
  FastMCP := string * pyval;
  ASGIApp := string * pyval;
  from_openapi := fun spec _ name _ => Ok (name, spec);
  http_app := fun mcp _ => mcp;
  static_files := None;
|}.

(** One bearer scheme required for the whole document; [POST /pets] opts
    out with an empty operation-level list. *)
Definition petstore : pyval :=
  PyDict
    [("openapi", PyStr "3.0.0");
     ("info", PyDict [("title", PyStr "Petstore")]);
     ("servers",
      PyList [PyDict [("url", PyStr "https://petstore.example.com/v1")]]);
     ("security", PyList [PyDict [("bearerAuth", PyList [])]]);
     ("paths",
      PyDict
        [("/pets",
          PyDict
            [("get", PyDict [("operationId", PyStr "listPets")]);
             ("post", PyDict [("operationId", PyStr "addPet");
                              ("security", PyList [])]);
             ("delete", PyDict [("operationId", PyStr "dropPets");
                                ("security",
                                 PyList [PyDict [("apiKey", PyList [])]])])])])].

(** No [servers], no [security]. *)
Definition open_api : pyval :=
  PyDict
    [("openapi", PyStr "3.0.0");
     ("info", PyDict [("title", PyStr "Open")]);
     ("paths",
      PyDict [("/ping", PyDict [("get", PyDict [("operationId", PyStr "ping")])])])].

(** A document whose [info] is not an object. *)
Definition untitled : pyval :=
  PyDict [("openapi", PyStr "3.0.0"); ("info", PyStr "Untitled");
          ("paths", PyDict [])].

Definition route (m : string) (pmap schema : pydict) : HTTPRoute :=
  {| path := "/pets"; method := m; parameter_map := pmap;
     flat_param_schema := schema |}.

Definition tool (params : pydict) : Component :=
  {| component_type := OpenAPITool; tags := ∅; parameters := params |}.

(** A schema whose only property is [limit]. *)
Definition limit_schema : pydict :=
  [("type", PyStr "object");
   ("properties", PyDict [("limit", PyDict [("type", PyStr "integer")])])].

Definition limit_map : pydict :=
  [("limit", PyDict [("location", PyStr "query");
                     ("openapi_name", PyStr "limit")])].

(** An operation that declares a query parameter named [Authorization],
    an integer. *)
Definition clash_schema : pydict :=
  [("type", PyStr "object");
   ("properties",
    PyDict [("Authorization", PyDict [("type", PyStr "integer")])])].

Definition clash_map : pydict :=
  [("Authorization", PyDict [("location", PyStr "query");
                             ("openapi_name", PyStr "Authorization")])].

(** A network that serves [doc] at every URL, and a generator that draws
    the bytes [bs]. *)
Definition world (doc : pyval) (bs : list byte) : @World packages :=
  {| http_get := fun _ => Ok (doc : @Response packages);
     token_bytes := fun _ => bs |}.

(** A network that is down. *)
Definition offline : @World packages :=
  {| http_get := fun _ => Raise (Exn LibraryError "All connection attempts failed");
     token_bytes := fun _ => [x00; x00; x00; x00] |}.

Definition request : Request := {| base_url := "http://localhost:5050/" |}.

(** Packages whose responses are plain text that is not JSON, with a YAML
    parser that reads a text as the scalar string it is. *)
Definition text_packages : Packages := {|
  check_bracketed_netloc := fun _ => Ok tt;
  checknetloc_nfkc := fun _ => Ok tt;
  py_repr := fun v => "<" +:+ type_name v +:+ ">";
  Response := string;
  raise_for_status := fun _ => Ok tt;
  resp_json := fun _ => Raise (Exn ValueError "Expecting value");
  resp_text := fun text => text;
  json_loads := fun _ => Raise (Exn ValueError "Expecting value: line 1 column 1 (char 0)");
  yaml_safe_load := Some (fun text => Ok (PyStr text));
  HttpClient := string;
  AsyncClient := fun base_url => Ok base_url;
  FastMCP := string * pyval;
  ASGIApp := string * pyval;
  from_openapi := fun spec _ name _ => Ok (name, spec);
  http_app := fun mcp _ => mcp;
  static_files := Some ("ui", PyNone);
|}.

(** The same without a YAML parser ([import yaml] failed). *)
Definition json_only_packages : Packages := {|
  check_bracketed_netloc := fun _ => Ok tt;
  checknetloc_nfkc := fun _ => Ok tt;
  py_repr := fun v => "<" +:+ type_name v +:+ ">";
  Response := string;
  raise_for_status := fun _ => Ok tt;
  resp_json := fun _ => Raise (Exn ValueError "Expecting value");
  resp_text := fun text => text;
  json_loads := fun _ => Raise (Exn ValueError "Expecting value: line 1 column 1 (char 0)");
  yaml_safe_load := None;
  HttpClient := string;
  AsyncClient := fun base_url => Ok base_url;
  FastMCP := string * pyval;
  ASGIApp := string * pyval;
  from_openapi := fun spec _ name _ => Ok (name, spec);
  http_app := fun mcp _ => mcp;
  static_files := None;
|}.

(** A network that serves the text [body] at every URL. *)
Definition text_world (body : string) : @World text_packages :=
  {| http_get := fun _ => Ok (body : @Response text_packages);
     token_bytes := fun _ => [x00; x00; x00; x00] |}.

Definition json_only_world (body : string) : @World json_only_packages :=
  {| http_get := fun _ => Ok (body : @Response json_only_packages);
     token_bytes := fun _ => [x00; x00; x00; x00] |}.

(** A schema whose [properties] is [null]. *)
Definition null_schema : pydict :=
  [("type", PyStr "object"); ("properties", PyNone)].

End Sample.

(* ===================================================================== *)
(** ** Vocabulary of the statements                                       *)
(* ===================================================================== *)

(** The first entry of [servers] is a dictionary whose [url] is the
    non-empty string [u]. *)
Definition declares_server_url (d : pydict) (u : string) : Prop :=
  ∃ s rest,
    dict_get d "servers" = Some (PyList (PyDict s :: rest)) ∧
    dict_get s "url" = Some (PyStr u) ∧ u ≠ EmptyString.


(** The [properties] of a JSON schema, and the schemas whose [properties],
    when present, is an object. *)
Definition properties_of (schema : pydict) : pydict :=
  match dict_get schema "properties" with
  | Some (PyDict props) => props
  | _ => []
  end.

Definition properties_is_object (schema : pydict) : Prop :=
  match dict_get schema "properties" with
  | Some (PyDict _) | None => True
  | Some _ => False
  end.

(** The value a [dict] holds under [k] after [if k not in d: d[k] = v]. *)
Definition kept_or (d : pydict) (k : string) (v : pyval) : pyval :=
  match dict_get d k with
  | Some old => old
  | None => v
  end.

(** A schema after [setdefault("properties", {})] and
    [if "Authorization" not in props: props["Authorization"] = ...], and a
    parameter map after the same guarded write. *)
Definition authorized_schema (schema : pydict) : pydict :=
  match dict_get schema "properties" with
  | Some (PyDict props) =>
      if dict_contains props "Authorization" then schema
      else dict_set schema "properties"
             (PyDict (dict_set props "Authorization" AUTHORIZATION_SCHEMA))
  | _ =>
      dict_set (dict_set schema "properties" (PyDict [])) "properties"
        (PyDict [("Authorization", AUTHORIZATION_SCHEMA)])
  end.

Definition authorized_map (pmap : pydict) : pydict :=
  if dict_contains pmap "Authorization" then pmap
  else dict_set pmap "Authorization" AUTHORIZATION_HEADER.

(** [component.parameters or {"type": "object", "properties": {}}] *)
Definition parameters_or_default (component : Component) : pydict :=
  if truthy (PyDict (parameters component))
  then parameters component else DEFAULT_PARAMETERS.

(** The [server_id] a reply carries, the identifiers the replies of a run
    carry, and the identifiers the calls of a run draw from the generator
    (a call that fails before the draw would have drawn the same). *)
Definition reply_server_id (r : Reply) : option string :=
  match r with
  | Returned body =>
      match dict_get body "server_id" with
      | Some (PyStr server_id) => Some server_id
      | _ => None
      end
  | HTTPException _ _ => None
  end.

Definition served_ids (rs : list Reply) : list string :=
  omap reply_server_id rs.

Section Runs.
Context `{Packages}.

Definition drawn_id (c : Call) : option string :=
  match c with
  | GetGenerate w _ _ => Some ("srv-" +:+ token_hex w 4)
  | GetHealth => None
  end.

Definition drawn_ids (cs : list Call) : list string := omap drawn_id cs.

End Runs.

(** The three lines [props = schema.setdefault("properties", {})],
    [if "Authorization" not in props:], [props["Authorization"] = ...] on
    one schema: the schema afterwards, or the exception. *)
Definition guarded_authorization (schema : pydict) : result pydict :=
  let '(props, schema) := dict_setdefault schema "properties" (PyDict []) in
  (present <- py_contains props "Authorization" ;;
   if present then Ok schema else
     props' <- py_setitem props "Authorization" AUTHORIZATION_SCHEMA ;;
     Ok (dict_set schema "properties" props'))%result.

(** [component.tags.add("openapi")] *)
Definition tagged (component : Component) : Component :=
  set_tags component (tags component ∪ {["openapi"]}).

Definition is_lower_hex (c : ascii) : bool :=
  ascii_in c 48 57 || ascii_in c 97 102.

Section RunVocabulary.
Context `{Packages}.

(** Every registered server is mounted at the path its entry records, and
    that path is [/mcp/] followed by its identifier. *)
Definition registered_is_mounted (app : App) : Prop :=
  ∀ id entry,
    RUNNING_SERVERS app !! id = Some entry →
    mount_path entry = "/mcp/" +:+ id ∧
    (mount_path entry, http_app (mcp entry) "/") ∈ mounts app.

(** The calls that reach [app.mount]: a [generate] whose fetch and
    conversion both return. *)
Definition registers (c : Call) : bool :=
  match c with
  | GetGenerate w _ openapi_url =>
      match fetch_openapi_spec w openapi_url with
      | Ok openapi_spec =>
          is_Ok (_build_mcp_from_openapi openapi_spec openapi_url)
      | Raise _ => false
      end
  | GetHealth => false
  end.

End RunVocabulary.

(** The value of a lower-case hexadecimal digit, and the reading back of
    what [hexlify] writes. *)
Definition hex_value (c : ascii) : N :=
  if ascii_in c 48 57 then (N_of_ascii c - 48)%N else (N_of_ascii c - 87)%N.

Fixpoint unhexlify (s : string) : option (list byte) :=
  match s with
  | EmptyString => Some []
  | String c1 (String c2 s') =>
      match Byte.of_N (16 * hex_value c1 + hex_value c2), unhexlify s' with
      | Some b, Some bs => Some (b :: bs)
      | _, _ => None
      end
  | String _ EmptyString => None
  end.

(** Running [customize_components] on a symbolic state. *)
Ltac mutator_step :=
  cbn [fst snd component_type tags parameters set_tags set_parameters
       path method parameter_map flat_param_schema set_parameter_map
       set_flat_param_schema].

Ltac run_mutator :=
  unfold customize_components, mbind, mlift, mret, get_component,
    put_component, get_route, put_route;
  mutator_step.

(* ===================================================================== *)
(** ** Dictionaries and strings                                           *)
(* ===================================================================== *)

Lemma dict_get_set_eq (d : pydict) (k : string) (v : pyval) :
  dict_get (dict_set d k v) k = Some v.
Proof.
  induction d as [|[k' v'] d IH]; simpl.
  - by rewrite String.eqb_refl.
  - destruct (String.eqb k' k) eqn:E; simpl; rewrite E; auto.
Qed.

Lemma dict_get_set_ne (d : pydict) (k k' : string) (v : pyval) :
  k ≠ k' → dict_get (dict_set d k v) k' = dict_get d k'.
Proof.
  intros Hne. induction d as [|[k0 v0] d IH]; simpl.
  - destruct (String.eqb_spec k k'); congruence.
  - destruct (String.eqb_spec k0 k) as [->|Hk]; simpl.
    + destruct (String.eqb_spec k k'); congruence.
    + destruct (String.eqb_spec k0 k'); auto.
Qed.

Lemma string_app_nil_l (s : string) : EmptyString +:+ s = s.
Proof. reflexivity. Qed.

Lemma string_app_cons (c : ascii) (s t : string) :
  String c s +:+ t = String c (s +:+ t).
Proof. reflexivity. Qed.

Lemma string_app_nil_r (s : string) : s +:+ EmptyString = s.
Proof.
  induction s as [|c s IH]; [done|]. by rewrite string_app_cons, IH.
Qed.


Lemma string_prefix_app (a s : string) : string_prefix a (a +:+ s) = true.
Proof.
  induction a as [|c a IH]; [done|].
  rewrite string_app_cons. simpl. by rewrite Ascii.eqb_refl, IH.
Qed.

Lemma string_contains_here (a s : string) :
  string_prefix a s = true → string_contains a s = true.
Proof. intros Hp. destruct s; simpl; rewrite Hp; done. Qed.

Lemma string_contains_app (a b c : string) :
  string_contains b (a +:+ b +:+ c) = true.
Proof.
  induction a as [|x a IH].
  - rewrite string_app_nil_l.
    apply string_contains_here, string_prefix_app.
  - rewrite string_app_cons. simpl. rewrite IH. apply orb_true_r.
Qed.

Lemma string_contains_suffix (a b : string) :
  string_contains b (a +:+ b) = true.
Proof.
  rewrite <- (string_app_nil_r b) at 2. apply string_contains_app.
Qed.



(* ===================================================================== *)
(** ** [_derive_base_url]                                                 *)
(* ===================================================================== *)

Section DeriveBaseUrl.
Context `{Packages}.

(** On a dictionary the body of the [try] never raises, and returns
    exactly when the first server declares a URL. *)
Lemma servers_url_dict (d : pydict) :
  servers_url (PyDict d) =
  Ok match dict_get d "servers" with
     | Some (PyList (PyDict s :: _)) =>
         match dict_get s "url" with
         | Some (PyStr u) => if String.eqb u "" then None else Some u
         | _ => None
         end
     | _ => None
     end.
Proof.
  unfold servers_url, py_or. simpl.
  destruct (dict_get d "servers")
    as [[ |b|z|m e|s|[|[ |b'|z'|m' e'|s'|l'|s0] rest]|[|kv d0]]|]; simpl;
    try done; try (by destruct b);
    try (destruct (Z.eqb _ _) eqn:E; simpl; rewrite ?E; done);
    try (destruct (String.eqb _ _) eqn:E; simpl; rewrite ?E; done).
  destruct (dict_get s0 "url") as [[ |b|z|m e|u|l|d0]|]; simpl; try done.
  by destruct (String.eqb u "").
Qed.

Lemma servers_url_declared (d : pydict) (u : string) :
  declares_server_url d u ↔ servers_url (PyDict d) = Ok (Some u).
Proof.
  rewrite servers_url_dict. split.
  - intros (s & rest & -> & -> & Hu).
    by destruct (String.eqb_spec u "").
  - intros [= Hm].
    destruct (dict_get d "servers")
      as [[ |b|z|m e|s|[|[ |b'|z'|m' e'|s'|l'|s0] rest]|d0]|] eqn:Es;
      try done.
    destruct (dict_get s0 "url") as [[ |b|z|m e|u'|l|d0]|] eqn:Eu;
      try done.
    destruct (String.eqb_spec u' ""); [done|].
    injection Hm as ->. by exists s0, rest.
Qed.

(** C7, as amended: for every dictionary and every URL,
    [_derive_base_url] returns the [url] of the first entry of [servers]
    when that entry is a dictionary whose [url] is a non-empty string, and
    otherwise what [urlparse] gives for the spec URL: [scheme://netloc]
    when it parses, the exception of [urlparse] when it does not.  The
    handling of the dictionary never raises, and the function returns
    whenever [urlparse] accepts the URL. *)
Theorem derive_base_url_spec (d : pydict) (openapi_url : string) :
  (∀ u, declares_server_url d u →
        _derive_base_url (PyDict d) openapi_url = Ok u) ∧
  ((¬ ∃ u, declares_server_url d u) →
     (∀ parsed, urlparse openapi_url = Ok parsed →
        _derive_base_url (PyDict d) openapi_url =
          Ok (scheme parsed +:+ "://" +:+ netloc parsed)) ∧
     (∀ e, urlparse openapi_url = Raise e →
        _derive_base_url (PyDict d) openapi_url = Raise e)) ∧
  (∃ o, servers_url (PyDict d) = Ok o) ∧
  (is_Ok (urlparse openapi_url) = true →
     is_Ok (_derive_base_url (PyDict d) openapi_url) = true).
Proof.
  unfold _derive_base_url, origin_of. split; [|split; [|split]].
  - intros u Hu. apply servers_url_declared in Hu. by rewrite Hu.
  - intros Hnone.
    destruct (servers_url (PyDict d)) as [[u|]|] eqn:E.
    + exfalso. apply Hnone. exists u. by apply servers_url_declared.
    + split; intros ? Hp; by rewrite Hp.
    + split; intros ? Hp; by rewrite Hp.
  - rewrite servers_url_dict. by eexists.
  - intros Hp. rewrite servers_url_dict.
    destruct (urlparse openapi_url); [|done].
    by repeat case_match.
Qed.

End DeriveBaseUrl.

(** The servers of the document win over the spec URL, and a document
    without servers gets the origin of the spec URL. *)
Lemma derive_base_url_spec_witness :
  _derive_base_url (H:=Sample.packages) Sample.petstore "http://[" =
    Ok "https://petstore.example.com/v1" ∧
  _derive_base_url (H:=Sample.packages) Sample.open_api
    "https://api.example.com/spec/openapi.json" = Ok "https://api.example.com".
Proof.
  split.
  - apply (proj1 (derive_base_url_spec (H:=Sample.packages) _ "http://[")).
    eexists _, _.
    split; [reflexivity | split; [reflexivity | discriminate]].
  - refine (proj1 (proj1 (proj2 (derive_base_url_spec (H:=Sample.packages)
                                   _ _)) _)
              {| scheme := "https"; netloc := "api.example.com" |} _).
    + intros (u & s & rest & Hs & _). vm_compute in Hs. discriminate.
    + reflexivity.
Defined.

Example urlparse_origin :
  urlparse (H:=Sample.packages) "HTTPS://User@Example.com:8443/a/b?q=1#top" =
    Ok {| scheme := "https"; netloc := "User@Example.com:8443" |} ∧
  urlparse (H:=Sample.packages) "mailto:someone@example.com" =
    Ok {| scheme := "mailto"; netloc := "" |} ∧
  urlparse (H:=Sample.packages) "//cdn.example.com/spec.yaml" =
    Ok {| scheme := ""; netloc := "cdn.example.com" |} ∧
  urlparse (H:=Sample.packages) "http://]/openapi.json" =
    Raise (Exn ValueError "Invalid IPv6 URL").
Proof. by vm_compute. Qed.

(** C7 as stated fails: on the empty document and a spec URL whose netloc
    opens a bracket it never closes, [_derive_base_url] raises the
    [ValueError] of [urlparse], which sits outside the [try]. *)
Lemma derive_base_url_raises :
  _derive_base_url (H:=Sample.packages) (PyDict []) "http://[" =
    Raise (Exn ValueError "Invalid IPv6 URL").
Proof. reflexivity. Qed.

(* ===================================================================== *)
(** ** [get_security_schemes_for_route]                                   *)
(* ===================================================================== *)







(** In the sample document [GET /pets] inherits the top-level scheme,
    [POST /pets] opts out, [DELETE /pets] names its own, and a method the
    document does not list falls back to the top level. *)
Example petstore_schemes :
  get_security_schemes_for_route Sample.petstore (Sample.route "GET" [] []) =
    Ok {["bearerAuth"]} ∧
  get_security_schemes_for_route Sample.petstore (Sample.route "POST" [] []) =
    Ok ∅ ∧
  get_security_schemes_for_route Sample.petstore
    (Sample.route "DELETE" [] []) = Ok {["apiKey"]} ∧
  get_security_schemes_for_route Sample.petstore (Sample.route "PUT" [] []) =
    Ok {["bearerAuth"]}.
Proof. by vm_compute. Qed.


(* ===================================================================== *)
(** ** [customize_components]                                             *)
(* ===================================================================== *)

Lemma properties_of_authorized (schema : pydict) :
  dict_get (authorized_schema schema) "properties" =
  Some (PyDict (properties_of (authorized_schema schema))).
Proof.
  unfold properties_of, authorized_schema.
  destruct (dict_get schema "properties") as [[ |b|z|m e|s|l|props]|] eqn:E;
    rewrite ?dict_get_set_eq; try done.
  destruct (dict_contains props "Authorization");
    by rewrite ?dict_get_set_eq, ?E.
Qed.

Lemma authorized_schema_authorization (schema : pydict) :
  properties_is_object schema →
  dict_get (properties_of (authorized_schema schema)) "Authorization" =
  Some (kept_or (properties_of schema) "Authorization" AUTHORIZATION_SCHEMA).
Proof.
  unfold properties_is_object, properties_of, authorized_schema, kept_or.
  destruct (dict_get schema "properties") as [[ |b|z|m e|s|l|props]|] eqn:E;
    try done; intros _.
  - unfold dict_contains.
    destruct (dict_get props "Authorization") eqn:Ea.
    + by rewrite E.
    + by rewrite !dict_get_set_eq.
  - by rewrite dict_get_set_eq.
Qed.

Lemma authorized_schema_other_property (schema : pydict) (k : string) :
  properties_is_object schema → k ≠ "Authorization" →
  dict_get (properties_of (authorized_schema schema)) k =
  dict_get (properties_of schema) k.
Proof.
  unfold properties_is_object, properties_of, authorized_schema.
  destruct (dict_get schema "properties") as [[ |b|z|m e|s|l|props]|] eqn:E;
    try done; intros _ Hk.
  - destruct (dict_contains props "Authorization").
    + by rewrite E.
    + rewrite dict_get_set_eq. by apply dict_get_set_ne.
  - rewrite dict_get_set_eq.
    change [("Authorization", AUTHORIZATION_SCHEMA)]
      with (dict_set [] "Authorization" AUTHORIZATION_SCHEMA).
    by rewrite dict_get_set_ne.
Qed.

Lemma authorized_schema_other_key (schema : pydict) (k : string) :
  k ≠ "properties" →
  dict_get (authorized_schema schema) k = dict_get schema k.
Proof.
  intros Hk. unfold authorized_schema.
  destruct (dict_get schema "properties") as [[ |b|z|m e|s|l|props]|];
    rewrite ?dict_get_set_ne by done; try done.
  destruct (dict_contains props "Authorization"); [done|].
  by rewrite dict_get_set_ne.
Qed.

Lemma authorized_map_authorization (pmap : pydict) :
  dict_get (authorized_map pmap) "Authorization" =
  Some (kept_or pmap "Authorization" AUTHORIZATION_HEADER).
Proof.
  unfold authorized_map, dict_contains, kept_or.
  destruct (dict_get pmap "Authorization") eqn:E; [done|].
  by rewrite dict_get_set_eq.
Qed.

Lemma authorized_map_other (pmap : pydict) (k : string) :
  k ≠ "Authorization" →
  dict_get (authorized_map pmap) k = dict_get pmap k.
Proof.
  intros Hk. unfold authorized_map.
  destruct (dict_contains pmap "Authorization"); [done|].
  by apply dict_get_set_ne.
Qed.

Lemma parameters_or_default_properties (component : Component) :
  properties_of (parameters_or_default component) =
  properties_of (parameters component) ∧
  (properties_is_object (parameters component) →
   properties_is_object (parameters_or_default component)).
Proof.
  unfold parameters_or_default. by destruct (parameters component).
Qed.

Lemma customize_components_unsecured (spec : SchemaPath) (route : HTTPRoute)
  (component : Component) :
  get_security_schemes_for_route spec route = Ok ∅ →
  customize_components spec (route, component) =
  (Ok tt, (route, set_tags component (tags component ∪ {["openapi"]}))).
Proof. intros Hs. run_mutator. rewrite Hs. mutator_step. by case_decide. Qed.

Lemma customize_components_tool (spec : SchemaPath) (route : HTTPRoute)
  (component : Component) (secured : gset string) :
  get_security_schemes_for_route spec route = Ok secured →
  secured ≠ ∅ →
  component_type component = OpenAPITool →
  properties_is_object (parameters component) →
  properties_is_object (flat_param_schema route) →
  customize_components spec (route, component) =
  (Ok tt,
   (set_flat_param_schema
      (set_parameter_map route (authorized_map (parameter_map route)))
      (authorized_schema (flat_param_schema route)),
    set_parameters (set_tags component (tags component ∪ {["openapi"]}))
      (authorized_schema (parameters_or_default component)))).
Proof.
  intros Hs Hne Htool Hparams Hflat.
  apply parameters_or_default_properties in Hparams.
  run_mutator. rewrite Hs. mutator_step. case_decide; [done|].
  mutator_step. rewrite Htool. fold (parameters_or_default component).
  revert Hparams.
  generalize (parameters_or_default component) as params.
  destruct route as [p m pmap flat]. simpl in Hflat. intros params Hparams.
  unfold properties_is_object in Hparams, Hflat.
  unfold authorized_schema, authorized_map, dict_setdefault.
  destruct (dict_get params "properties") as [[ |b|z|m' e|s|l|props]|];
    try done; simpl;
    repeat (match goal with
            | |- context [dict_contains ?d ?k] =>
                destruct (dict_contains d k); simpl
            end);
    destruct (dict_get flat "properties") as [[ |b|z|m' e|s|l|fprops]|];
    try done; simpl;
    repeat (match goal with
            | |- context [dict_contains ?d ?k] =>
                destruct (dict_contains d k); simpl
            end);
    reflexivity.
Qed.

(** What is written when the tool and the route declare no [Authorization]
    of their own: a string-typed property, and a header named
    [Authorization]. *)
Lemma authorization_defaults :
  ∃ schema header,
    AUTHORIZATION_SCHEMA = PyDict schema ∧
    dict_get schema "type" = Some (PyStr "string") ∧
    AUTHORIZATION_HEADER = PyDict header ∧
    dict_get header "location" = Some (PyStr "header") ∧
    dict_get header "openapi_name" = Some (PyStr "Authorization").
Proof. by eexists _, _. Qed.

(** C1, as amended: every component is tagged [openapi].  A route with no
    security scheme keeps its parameters and so does its component.  For a
    route with a security scheme and a tool whose schemas hold an object
    under [properties] (or nothing), the callback returns and, afterwards,
    the [properties] of the tool's schema and of the route's flat schema
    hold [Authorization], and so does the route's parameter map: with the
    string-typed header description where no [Authorization] was declared,
    with the declared entry, kept as it was, where one was; every other
    property and every other parameter is as before. *)
Theorem customize_components_spec (spec : SchemaPath) (route : HTTPRoute)
  (component : Component) (secured : gset string) :
  get_security_schemes_for_route spec route = Ok secured →
  let out := customize_components spec (route, component) in
  let route' := fst (snd out) in
  let component' := snd (snd out) in
  (secured = ∅ →
     fst out = Ok tt ∧
     tags component' = tags component ∪ {["openapi"]} ∧
     route' = route ∧
     parameters component' = parameters component) ∧
  (secured ≠ ∅ →
   component_type component = OpenAPITool →
   properties_is_object (parameters component) →
   properties_is_object (flat_param_schema route) →
     fst out = Ok tt ∧
     tags component' = tags component ∪ {["openapi"]} ∧
     dict_get (parameters component') "properties" =
       Some (PyDict (properties_of (parameters component'))) ∧
     dict_get (properties_of (parameters component')) "Authorization" =
       Some (kept_or (properties_of (parameters component))
               "Authorization" AUTHORIZATION_SCHEMA) ∧
     (∀ k, k ≠ "Authorization" →
        dict_get (properties_of (parameters component')) k =
        dict_get (properties_of (parameters component)) k) ∧
     dict_get (parameter_map route') "Authorization" =
       Some (kept_or (parameter_map route) "Authorization"
               AUTHORIZATION_HEADER) ∧
     (∀ k, k ≠ "Authorization" →
        dict_get (parameter_map route') k = dict_get (parameter_map route) k) ∧
     dict_get (properties_of (flat_param_schema route')) "Authorization" =
       Some (kept_or (properties_of (flat_param_schema route))
               "Authorization" AUTHORIZATION_SCHEMA) ∧
     (∀ k, k ≠ "Authorization" →
        dict_get (properties_of (flat_param_schema route')) k =
        dict_get (properties_of (flat_param_schema route)) k)).
Proof.
  intros Hs out route' component'. subst route' component' out. split.
  - intros ->. by rewrite customize_components_unsecured.
  - intros Hne Htool Hparams Hflat.
    rewrite (customize_components_tool _ _ _ _ Hs Hne Htool Hparams Hflat).
    destruct (parameters_or_default_properties component) as [Hprops Hobj].
    simpl. split; [done|]. split; [done|].
    split; [apply properties_of_authorized|].
    split; [rewrite <- Hprops; apply authorized_schema_authorization; auto|].
    split; [intros k Hk; rewrite <- Hprops;
            by apply authorized_schema_other_property; auto|].
    split; [apply authorized_map_authorization|].
    split; [apply authorized_map_other|].
    split; [by apply authorized_schema_authorization|].
    intros k Hk. by apply authorized_schema_other_property.
Qed.

(** A secured route whose tool declares only [limit] gets the header; an
    unsecured one is left alone. *)
Lemma customize_components_spec_witness :
  let out :=
    customize_components Sample.petstore
      (Sample.route "GET" Sample.limit_map Sample.limit_schema,
       Sample.tool Sample.limit_schema) in
  dict_get (properties_of (parameters (snd (snd out)))) "Authorization" =
    Some AUTHORIZATION_SCHEMA ∧
  dict_get (parameter_map (fst (snd out))) "Authorization" =
    Some AUTHORIZATION_HEADER ∧
  fst (snd (customize_components Sample.petstore
              (Sample.route "POST" Sample.limit_map Sample.limit_schema,
               Sample.tool Sample.limit_schema))) =
    Sample.route "POST" Sample.limit_map Sample.limit_schema.
Proof.
  intros out. subst out.
  destruct (customize_components_spec Sample.petstore
              (Sample.route "GET" Sample.limit_map Sample.limit_schema)
              (Sample.tool Sample.limit_schema) {["bearerAuth"]} eq_refl)
    as [_ Hsecured].
  destruct Hsecured as (_ & _ & _ & Hprop & _ & Hmap & _);
    [set_solver | reflexivity | exact I | exact I |].
  destruct (customize_components_spec Sample.petstore
              (Sample.route "POST" Sample.limit_map Sample.limit_schema)
              (Sample.tool Sample.limit_schema) ∅ eq_refl)
    as [Hopen _].
  destruct (Hopen eq_refl) as (_ & _ & Hroute & _).
  split; [exact Hprop|]. split; [exact Hmap | exact Hroute].
Defined.

(** C1 as stated fails: [GET /pets] is secured by [bearerAuth], its tool
    declares a query parameter [Authorization] of type integer, and after
    [customize_components] that property is still the integer one and the
    parameter map still sends it in the query. *)
Lemma customize_components_keeps_declared :
  let route := Sample.route "GET" Sample.clash_map Sample.clash_schema in
  let out :=
    customize_components Sample.petstore
      (route, Sample.tool Sample.clash_schema) in
  get_security_schemes_for_route Sample.petstore route =
    Ok {["bearerAuth"]} ∧
  fst out = Ok tt ∧
  dict_get (properties_of (parameters (snd (snd out)))) "Authorization" =
    Some (PyDict [("type", PyStr "integer")]) ∧
  dict_get (parameter_map (fst (snd out))) "Authorization" =
    Some (PyDict [("location", PyStr "query");
                  ("openapi_name", PyStr "Authorization")]).
Proof. by vm_compute. Qed.

(* ===================================================================== *)
(** ** [generate] and [health]                                            *)
(* ===================================================================== *)

Section Handlers.
Context `{Packages}.

Lemma generate_fetch_error (w : World) (request : Request)
  (openapi_url : string) (app : App) (e : exn) :
  fetch_openapi_spec w openapi_url = Raise e →
  generate w request openapi_url app =
  (HTTPException 400 ("Failed to fetch OpenAPI: " +:+ exn_str e), app).
Proof. intros Hf. unfold generate. by rewrite Hf. Qed.

Lemma generate_build_error (w : World) (request : Request)
  (openapi_url : string) (app : App) (openapi_spec : pyval) (e : exn) :
  fetch_openapi_spec w openapi_url = Ok openapi_spec →
  _build_mcp_from_openapi openapi_spec openapi_url = Raise e →
  generate w request openapi_url app =
  (HTTPException 400 ("Failed to build MCP: " +:+ exn_str e), app).
Proof. intros Hf Hb. unfold generate. by rewrite Hf, Hb. Qed.

Lemma generate_built (w : World) (request : Request)
  (openapi_url : string) (app : App) (openapi_spec : pyval)
  (server : FastMCP) :
  fetch_openapi_spec w openapi_url = Ok openapi_spec →
  _build_mcp_from_openapi openapi_spec openapi_url = Ok server →
  generate w request openapi_url app =
  (Returned
     [("server_id", PyStr ("srv-" +:+ token_hex w 4));
      ("mcp_url",
       PyStr (rstrip (λ c, ascii_is c "/") (base_url request) +:+
              ("/mcp/" +:+ "srv-" +:+ token_hex w 4) +:+ "/"))],
   register
     (app_mount app ("/mcp/" +:+ "srv-" +:+ token_hex w 4)
        (http_app server "/"))
     ("srv-" +:+ token_hex w 4)
     {| mount_path := "/mcp/" +:+ "srv-" +:+ token_hex w 4;
        mcp := server |}).
Proof. intros Hf Hb. unfold generate. by rewrite Hf, Hb. Qed.

(** C2: when the fetch of the spec raises, and when the fetch returns and
    the conversion raises, [generate] fails with status 400 and a detail
    that ends with the message of the exception; and a failure of
    [generate] has one of these two causes. *)
Theorem generate_error_translation (w : World) (request : Request)
  (openapi_url : string) (app : App) :
  (∀ e, fetch_openapi_spec w openapi_url = Raise e →
     ∃ detail,
       fst (generate w request openapi_url app) = HTTPException 400 detail ∧
       detail = "Failed to fetch OpenAPI: " +:+ exn_str e ∧
       string_contains (exn_str e) detail = true) ∧
  (∀ openapi_spec e,
     fetch_openapi_spec w openapi_url = Ok openapi_spec →
     _build_mcp_from_openapi openapi_spec openapi_url = Raise e →
     ∃ detail,
       fst (generate w request openapi_url app) = HTTPException 400 detail ∧
       detail = "Failed to build MCP: " +:+ exn_str e ∧
       string_contains (exn_str e) detail = true) ∧
  (∀ status_code detail,
     fst (generate w request openapi_url app) =
       HTTPException status_code detail →
     (∃ e, fetch_openapi_spec w openapi_url = Raise e) ∨
     (∃ openapi_spec e,
        fetch_openapi_spec w openapi_url = Ok openapi_spec ∧
        _build_mcp_from_openapi openapi_spec openapi_url = Raise e)).
Proof.
  split; [|split].
  - intros e Hf. eexists. rewrite (generate_fetch_error _ _ _ _ _ Hf).
    split; [done|]. split; [done|]. apply string_contains_suffix.
  - intros openapi_spec e Hf Hb. eexists.
    rewrite (generate_build_error _ _ _ _ _ _ Hf Hb).
    split; [done|]. split; [done|]. apply string_contains_suffix.
  - intros status_code detail.
    destruct (fetch_openapi_spec w openapi_url) as [openapi_spec|e] eqn:Hf;
      [|left; by eexists].
    destruct (_build_mcp_from_openapi openapi_spec openapi_url)
      as [server|e] eqn:Hb; [|right; by eexists _, _].
    by rewrite (generate_built _ _ _ _ _ _ Hf Hb).
Qed.

(** C9: a call of [generate] that fails with status 400 leaves the
    registry and the mounted sub-applications as they were. *)
Theorem generate_failure_frame (w : World) (request : Request)
  (openapi_url : string) (app : App) :
  reply_status (fst (generate w request openapi_url app)) = 400 →
  snd (generate w request openapi_url app) = app.
Proof.
  destruct (fetch_openapi_spec w openapi_url) as [openapi_spec|e] eqn:Hf;
    [|by rewrite (generate_fetch_error _ _ _ _ _ Hf)].
  destruct (_build_mcp_from_openapi openapi_spec openapi_url)
    as [server|e] eqn:Hb;
    [|by rewrite (generate_build_error _ _ _ _ _ _ Hf Hb)].
  by rewrite (generate_built _ _ _ _ _ _ Hf Hb).
Qed.



(** C5: after any run of requests, from any state, [health] answers 200
    with the payload [{"status": "ok"}] and changes nothing. *)
Theorem health_fixed (cs : list Call) (app : App) :
  health (snd (serve_all cs app)) =
    (Returned [("status", PyStr "ok")], snd (serve_all cs app)) ∧
  reply_status (fst (health (snd (serve_all cs app)))) = 200.
Proof. done. Qed.

End Handlers.

(* ===================================================================== *)
(** ** The registry over a run of requests                                *)
(* ===================================================================== *)

Section Registry.
Context `{Packages}.

Lemma serve_all_cons (c : Call) (cs : list Call) (app : App) :
  serve_all (c :: cs) app =
  (fst (serve c app) :: fst (serve_all cs (snd (serve c app))),
   snd (serve_all cs (snd (serve c app)))).
Proof.
  cbn [serve_all]. destruct (serve c app) as [r app'].
  cbn [fst snd]. by destruct (serve_all cs app') as [rs app''].
Qed.

Lemma serve_all_app (cs1 cs2 : list Call) (app : App) :
  snd (serve_all (cs1 ++ cs2) app) =
  snd (serve_all cs2 (snd (serve_all cs1 app))).
Proof.
  revert app. induction cs1 as [|c cs1 IH]; intros app; [done|].
  rewrite <- app_comm_cons, !serve_all_cons. simpl. apply IH.
Qed.

(** One request either leaves the registry alone and returns no
    identifier, or writes the entry of the identifier it drew and returns
    that identifier. *)
Lemma serve_registry (c : Call) (app : App) :
  (reply_server_id (fst (serve c app)) = None ∧
   RUNNING_SERVERS (snd (serve c app)) = RUNNING_SERVERS app) ∨
  (∃ id entry,
     drawn_id c = Some id ∧
     reply_server_id (fst (serve c app)) = Some id ∧
     RUNNING_SERVERS (snd (serve c app)) =
       <[id := entry]> (RUNNING_SERVERS app)).
Proof.
  destruct c as [w request openapi_url|]; simpl; [|by left].
  destruct (fetch_openapi_spec w openapi_url) as [openapi_spec|e] eqn:Hf;
    [|left; by rewrite (generate_fetch_error _ _ _ _ _ Hf)].
  destruct (_build_mcp_from_openapi openapi_spec openapi_url)
    as [server|e] eqn:Hb;
    [|left; by rewrite (generate_build_error _ _ _ _ _ _ Hf Hb)].
  right. rewrite (generate_built _ _ _ _ _ _ Hf Hb). by eexists _, _.
Qed.

Lemma registry_never_shrinks (cs : list Call) (app : App) (id : string) :
  is_Some (RUNNING_SERVERS app !! id) →
  is_Some (RUNNING_SERVERS (snd (serve_all cs app)) !! id).
Proof.
  revert app. induction cs as [|c cs IH]; intros app Hid; [done|].
  rewrite serve_all_cons. simpl. apply IH.
  destruct (serve_registry c app) as [[_ ->]|(id' & entry & _ & _ & ->)];
    [done|].
  rewrite lookup_insert_is_Some. destruct (decide (id' = id)); auto.
Qed.

Lemma registry_entry_kept (cs : list Call) (app : App) (id : string)
  (entry : ServerEntry) :
  RUNNING_SERVERS app !! id = Some entry →
  id ∉ drawn_ids cs →
  RUNNING_SERVERS (snd (serve_all cs app)) !! id = Some entry.
Proof.
  revert app. induction cs as [|c cs IH]; intros app Hid Hfresh; [done|].
  rewrite serve_all_cons. simpl. unfold drawn_ids in Hfresh. simpl in Hfresh.
  destruct (serve_registry c app)
    as [[_ Hsame]|(id' & entry' & Hdrawn & _ & Hins)].
  - apply IH; [by rewrite Hsame|].
    destruct (drawn_id c); [|done]. set_solver.
  - rewrite Hdrawn in Hfresh. apply not_elem_of_cons in Hfresh as [Hne ?].
    apply IH; [|done]. rewrite Hins. by rewrite lookup_insert_ne.
Qed.

Lemma registry_keys (cs : list Call) (app : App) (id : string) :
  is_Some (RUNNING_SERVERS (snd (serve_all cs app)) !! id) →
  is_Some (RUNNING_SERVERS app !! id) ∨ id ∈ drawn_ids cs.
Proof.
  revert app. induction cs as [|c cs IH]; intros app; [by left|].
  rewrite serve_all_cons. simpl. intros Hid.
  unfold drawn_ids. simpl. fold (drawn_ids cs).
  destruct (IH _ Hid) as [Hin|Hin].
  - destruct (serve_registry c app)
      as [[_ Hsame]|(id' & entry' & Hdrawn & _ & Hins)].
    + left. by rewrite <- Hsame.
    + rewrite Hdrawn. rewrite Hins in Hin.
      apply lookup_insert_is_Some in Hin as [->|[_ ?]]; [|by left].
      right. set_solver.
  - right. destruct (drawn_id c); set_solver.
Qed.

Lemma served_ids_drawn (cs : list Call) (app : App) :
  served_ids (fst (serve_all cs app)) `sublist_of` drawn_ids cs.
Proof.
  revert app. induction cs as [|c cs IH]; intros app; [done|].
  rewrite serve_all_cons. unfold served_ids, drawn_ids. simpl.
  fold (drawn_ids cs).
  fold (served_ids (fst (serve_all cs (snd (serve c app))))).
  destruct (serve_registry c app)
    as [[-> _]|(id' & entry' & -> & -> & _)].
  - destruct (drawn_id c); [apply sublist_cons|]; apply IH.
  - apply sublist_skip, IH.
Qed.

(** C3, as amended: over every run of requests, from every state, an
    identifier the registry holds is never removed; and when the
    identifiers the run draws are pairwise distinct and unused at the
    start, no two calls return the same [server_id] and every entry the
    registry holds at any point of the run is still there, unchanged, at
    the end. *)
Theorem registry_entries_persist (cs1 cs2 : list Call) (app : App) :
  (∀ id,
     is_Some (RUNNING_SERVERS (snd (serve_all cs1 app)) !! id) →
     is_Some (RUNNING_SERVERS (snd (serve_all (cs1 ++ cs2) app)) !! id)) ∧
  (NoDup (drawn_ids (cs1 ++ cs2)) →
   (∀ id, id ∈ drawn_ids (cs1 ++ cs2) → RUNNING_SERVERS app !! id = None) →
     NoDup (served_ids (fst (serve_all (cs1 ++ cs2) app))) ∧
     ∀ id entry,
       RUNNING_SERVERS (snd (serve_all cs1 app)) !! id = Some entry →
       RUNNING_SERVERS (snd (serve_all (cs1 ++ cs2) app)) !! id =
         Some entry).
Proof.
  rewrite serve_all_app. split.
  - intros id. apply registry_never_shrinks.
  - intros Hnodup Hfresh. split.
    + apply (sublist_NoDup _ (drawn_ids (cs1 ++ cs2)));
        [done | apply served_ids_drawn].
    + intros id entry Hid. apply registry_entry_kept; [done|].
      unfold drawn_ids in Hnodup, Hfresh. rewrite omap_app in Hnodup, Hfresh.
      apply NoDup_app in Hnodup as (_ & Hdisjoint & _).
      destruct (registry_keys cs1 app id) as [[entry0 Hold]|Hnew];
        [by eexists| |].
      * intros Hin. specialize (Hfresh id). rewrite elem_of_app in Hfresh.
        rewrite Hfresh in Hold; [done | by right].
      * by apply Hdisjoint.
Qed.

End Registry.

(* ===================================================================== *)
(** ** The handlers on sample requests                                    *)
(* ===================================================================== *)

(** With the network down the fetch raises; on a document whose [info] is a
    string the conversion raises at [.get("title")]. *)
Lemma generate_error_translation_witness :
  fst (generate (H:=Sample.packages) Sample.offline Sample.request
         "https://petstore.example.com/openapi.json" initial_app) =
    HTTPException 400
      "Failed to fetch OpenAPI: All connection attempts failed" ∧
  fst (generate (H:=Sample.packages)
         (Sample.world Sample.untitled [x00; x00; x00; x00]) Sample.request
         "https://api.example.com/openapi.json" initial_app) =
    HTTPException 400
      "Failed to build MCP: 'str' object has no attribute 'get'".
Proof.
  split.
  - destruct (proj1 (generate_error_translation (H:=Sample.packages)
                       Sample.offline Sample.request
                       "https://petstore.example.com/openapi.json"
                       initial_app)
                (Exn LibraryError "All connection attempts failed") eq_refl)
      as (detail & Hreply & -> & _).
    exact Hreply.
  - destruct (proj1 (proj2 (generate_error_translation (H:=Sample.packages)
                              (Sample.world Sample.untitled
                                 [x00; x00; x00; x00])
                              Sample.request
                              "https://api.example.com/openapi.json"
                              initial_app))
                Sample.untitled
                (Exn AttributeError "'str' object has no attribute 'get'")
                eq_refl eq_refl)
      as (detail & Hreply & -> & _).
    exact Hreply.
Defined.

Lemma generate_failure_frame_witness :
  snd (generate (H:=Sample.packages) Sample.offline Sample.request
         "https://petstore.example.com/openapi.json" initial_app) =
  initial_app.
Proof.
  apply (generate_failure_frame (H:=Sample.packages)). reflexivity.
Defined.

Example generate_petstore :
  fst (generate (H:=Sample.packages)
         (Sample.world Sample.petstore [x00; x0a; xff; x10]) Sample.request
         "https://petstore.example.com/openapi.json" initial_app) =
  Returned [("server_id", PyStr "srv-000aff10");
            ("mcp_url", PyStr "http://localhost:5050/mcp/srv-000aff10/")].
Proof. reflexivity. Qed.





(** Two calls that draw different bytes, with a health check between. *)
Lemma registry_entries_persist_witness :
  NoDup
    (served_ids
       (fst (serve_all (H:=Sample.packages)
               ([GetGenerate
                   (Sample.world Sample.petstore [x00; x0a; xff; x10])
                   Sample.request "https://petstore.example.com/openapi.json"] ++
                [GetHealth;
                 GetGenerate
                   (Sample.world Sample.open_api [x01; x02; x03; x04])
                   Sample.request "https://api.example.com/openapi.json"])
               initial_app))) ∧
  ∀ id entry,
    RUNNING_SERVERS
      (snd (serve_all (H:=Sample.packages)
              [GetGenerate
                 (Sample.world Sample.petstore [x00; x0a; xff; x10])
                 Sample.request "https://petstore.example.com/openapi.json"]
              initial_app)) !! id = Some entry →
    RUNNING_SERVERS
      (snd (serve_all (H:=Sample.packages)
              ([GetGenerate
                  (Sample.world Sample.petstore [x00; x0a; xff; x10])
                  Sample.request "https://petstore.example.com/openapi.json"] ++
               [GetHealth;
                GetGenerate
                  (Sample.world Sample.open_api [x01; x02; x03; x04])
                  Sample.request "https://api.example.com/openapi.json"])
              initial_app)) !! id = Some entry.
Proof.
  apply (proj2 (registry_entries_persist (H:=Sample.packages) _ _ _)).
  - refine (bool_decide_unpack _ _). vm_compute. exact I.
  - intros id _. apply lookup_empty.
Defined.

(** C3 as stated fails: two calls that draw the same four bytes return the
    same [server_id], and the entry the first one registered is replaced by
    the entry of the second. *)
Lemma generate_reuses_server_id :
  let cs :=
    [GetGenerate (H:=Sample.packages)
       (Sample.world Sample.petstore [x00; x00; x00; x00])
       Sample.request "https://petstore.example.com/openapi.json";
     GetGenerate (H:=Sample.packages)
       (Sample.world Sample.open_api [x00; x00; x00; x00])
       Sample.request "https://api.example.com/openapi.json"] in
  served_ids (fst (serve_all cs initial_app)) =
    ["srv-00000000"; "srv-00000000"] ∧
  RUNNING_SERVERS (snd (serve_all (take 1 cs) initial_app))
    !! "srv-00000000" =
    Some {| mount_path := "/mcp/srv-00000000";
            mcp := ("Petstore", Sample.petstore) : @FastMCP Sample.packages |} ∧
  RUNNING_SERVERS (snd (serve_all cs initial_app)) !! "srv-00000000" =
    Some {| mount_path := "/mcp/srv-00000000";
            mcp := ("Open", Sample.open_api) : @FastMCP Sample.packages |}.
Proof. by vm_compute. Qed.

(* ===================================================================== *)
(** ** Further properties of [_derive_base_url]                           *)
(* ===================================================================== *)

Section BaseUrlEdges.
Context `{Packages}.

(** X1: a document that is not a mapping (a YAML scalar, a JSON array)
    has no [get]; the [AttributeError] is swallowed and the base URL is the
    origin of the spec URL, or the exception of [urlparse]. *)
Theorem derive_base_url_not_mapping (openapi_spec : pyval)
  (openapi_url : string) :
  isinstance_dict openapi_spec = false →
  (∃ e, servers_url openapi_spec = Raise e ∧ exn_type e = AttributeError) ∧
  _derive_base_url openapi_spec openapi_url = origin_of openapi_url.
Proof.
  intros Hv. unfold _derive_base_url, servers_url.
  destruct openapi_spec; try discriminate; simpl; split; try done;
    by eexists.
Qed.

(** X2: only the first entry of [servers] is read: the entries after it
    never change the result, also when the first one declares no usable
    URL. *)
Theorem derive_base_url_first_server_only (d : pydict) (first : pyval)
  (rest rest' : list pyval) (openapi_url : string) :
  _derive_base_url (PyDict (dict_set d "servers" (PyList (first :: rest))))
    openapi_url =
  _derive_base_url (PyDict (dict_set d "servers" (PyList (first :: rest'))))
    openapi_url.
Proof.
  unfold _derive_base_url. rewrite !servers_url_dict, !dict_get_set_eq.
  by destruct first.
Qed.

End BaseUrlEdges.

Lemma derive_base_url_not_mapping_witness :
  _derive_base_url (H:=Sample.packages) (PyList [Sample.petstore])
    "https://api.example.com/openapi.json" = Ok "https://api.example.com".
Proof.
  rewrite (proj2 (derive_base_url_not_mapping (H:=Sample.packages)
                    (PyList [Sample.petstore])
                    "https://api.example.com/openapi.json" eq_refl)).
  reflexivity.
Defined.

(** A second server with a URL does not make up for a first one
    without. *)
Example derive_base_url_second_server_ignored :
  _derive_base_url (H:=Sample.packages)
    (PyDict [("servers",
              PyList [PyDict [("description", PyStr "primary")];
                      PyDict [("url", PyStr "https://backup.example.com")]])])
    "https://api.example.com/openapi.json" = Ok "https://api.example.com".
Proof. reflexivity. Qed.

(* ===================================================================== *)
(** ** Further properties of the fetch and of the conversion              *)
(* ===================================================================== *)

Section FetchAndBuild.
Context `{Packages}.
Local Open Scope result_scope.

(** X3: a body that [resp.json()] rejects and [yaml.safe_load] reads is
    accepted as the YAML value: [json.loads] is not asked, and [generate]
    goes on to the conversion of that value. *)
Theorem fetch_yaml_fallback (w : World) (request : Request)
  (openapi_url : string) (app : App) (resp : Response) (e : exn)
  (safe_load : string → result pyval) (openapi_spec : pyval) :
  http_get w openapi_url = Ok resp →
  raise_for_status resp = Ok tt →
  resp_json resp = Raise e →
  yaml_safe_load = Some safe_load →
  safe_load (resp_text resp) = Ok openapi_spec →
  fetch_openapi_spec w openapi_url = Ok openapi_spec ∧
  (∀ e', _build_mcp_from_openapi openapi_spec openapi_url = Raise e' →
     generate w request openapi_url app =
       (HTTPException 400 ("Failed to build MCP: " +:+ exn_str e'), app)).
Proof.
  intros Hget Hstatus Hjson Hyaml Hload.
  assert (Hfetch : fetch_openapi_spec w openapi_url = Ok openapi_spec).
  { unfold fetch_openapi_spec. rewrite Hget. simpl.
    by rewrite Hstatus, Hjson, Hyaml, Hload. }
  split; [done|]. intros e' Hbuild. by apply generate_build_error with openapi_spec.
Qed.

(** X4: when the answer arrives with a good status and every parser
    rejects the body, the detail of the 400 carries the message of
    [json.loads(resp.text)], the last parser tried; the exceptions of
    [resp.json()] and of [yaml.safe_load] are dropped. *)
Theorem generate_unparsable (w : World) (request : Request)
  (openapi_url : string) (app : App) (resp : Response) (e1 e3 : exn) :
  http_get w openapi_url = Ok resp →
  raise_for_status resp = Ok tt →
  resp_json resp = Raise e1 →
  (∀ safe_load, yaml_safe_load = Some safe_load →
                is_Ok (safe_load (resp_text resp)) = false) →
  json_loads (resp_text resp) = Raise e3 →
  generate w request openapi_url app =
    (HTTPException 400 ("Failed to fetch OpenAPI: " +:+ exn_str e3), app).
Proof.
  intros Hget Hstatus Hjson Hyaml Hloads.
  apply generate_fetch_error. unfold fetch_openapi_spec.
  rewrite Hget. simpl. rewrite Hstatus, Hjson.
  destruct yaml_safe_load as [safe_load|]; [|done].
  specialize (Hyaml safe_load eq_refl).
  by destruct (safe_load (resp_text resp)).
Qed.

(** X5: the conversion returns only for a document that is a mapping
    whose [info] is a mapping or missing: for a scalar or a list, and for
    an [info] that is [null], a string or a list, it raises, whatever the
    SDK would do with the document. *)
Theorem build_requires_mapping (openapi_spec : pyval) (openapi_url : string)
  (server : FastMCP) :
  _build_mcp_from_openapi openapi_spec openapi_url = Ok server →
  ∃ d,
    openapi_spec = PyDict d ∧
    (dict_get d "info" = None ∨ ∃ info, dict_get d "info" = Some (PyDict info)).
Proof.
  unfold _build_mcp_from_openapi.
  destruct (_derive_base_url openapi_spec openapi_url) as [base|]; [|done].
  simpl. destruct (AsyncClient base) as [client|]; [|done]. simpl.
  destruct openapi_spec as [ |b|z|m e|s|l|d]; try done. simpl.
  intros Hb. exists d. split; [done|].
  destruct (dict_get d "info") as [[ |b|z|m e|s|l|info]|]; try done;
    [right; by eexists | by left].
Qed.

(** X6: the name of the server is the [title] of [info] when that is a
    non-empty string, and [MCP from <base URL>] when [info] or [title] is
    missing, or [title] is [null] or empty. *)
Theorem build_server_name (d : pydict) (openapi_url base : string)
  (client : HttpClient) :
  _derive_base_url (PyDict d) openapi_url = Ok base →
  AsyncClient base = Ok client →
  (∀ info title,
     dict_get d "info" = Some (PyDict info) →
     dict_get info "title" = Some (PyStr title) →
     title ≠ EmptyString →
     _build_mcp_from_openapi (PyDict d) openapi_url =
       from_openapi (PyDict d) client title
         (customize_components (PyDict d))) ∧
  ((dict_get d "info" = None ∨
    ∃ info, dict_get d "info" = Some (PyDict info) ∧
            (dict_get info "title" = None ∨
             dict_get info "title" = Some PyNone ∨
             dict_get info "title" = Some (PyStr EmptyString))) →
     _build_mcp_from_openapi (PyDict d) openapi_url =
       from_openapi (PyDict d) client ("MCP from " +:+ base)
         (customize_components (PyDict d))).
Proof.
  intros Hbase Hclient. unfold _build_mcp_from_openapi.
  rewrite Hbase. simpl. rewrite Hclient. simpl. split.
  - intros info title -> Hinfo Htitle. simpl. rewrite Hinfo.
    unfold py_or. simpl. by destruct (String.eqb_spec title "").
  - intros [Hinfo|(info & Hinfo & Htitle)]; rewrite Hinfo; simpl; [done|].
    by destruct Htitle as [Htitle|[Htitle|Htitle]]; rewrite Htitle.
Qed.

End FetchAndBuild.

Lemma fetch_yaml_fallback_witness :
  fetch_openapi_spec (H:=Sample.text_packages)
    (Sample.text_world "<html>Not found</html>")
    "https://api.example.com/openapi.json" =
    Ok (PyStr "<html>Not found</html>") ∧
  generate (H:=Sample.text_packages)
    (Sample.text_world "<html>Not found</html>") Sample.request
    "https://api.example.com/openapi.json" initial_app =
    (HTTPException 400
       "Failed to build MCP: 'str' object has no attribute 'get'",
     initial_app).
Proof.
  destruct (fetch_yaml_fallback (H:=Sample.text_packages)
              (Sample.text_world "<html>Not found</html>") Sample.request
              "https://api.example.com/openapi.json" initial_app
              "<html>Not found</html>" (Exn ValueError "Expecting value")
              (λ text, Ok (PyStr text)) (PyStr "<html>Not found</html>")
              eq_refl eq_refl eq_refl eq_refl eq_refl)
    as [Hfetch Hbuild].
  split; [exact Hfetch|].
  exact (Hbuild (Exn AttributeError "'str' object has no attribute 'get'")
           eq_refl).
Defined.

Lemma generate_unparsable_witness :
  generate (H:=Sample.json_only_packages)
    (Sample.json_only_world "<html>Not found</html>") Sample.request
    "https://api.example.com/openapi.json" initial_app =
    (HTTPException 400
       "Failed to fetch OpenAPI: Expecting value: line 1 column 1 (char 0)",
     initial_app).
Proof.
  apply (generate_unparsable (H:=Sample.json_only_packages)
           (Sample.json_only_world "<html>Not found</html>") Sample.request
           "https://api.example.com/openapi.json" initial_app
           "<html>Not found</html>" (Exn ValueError "Expecting value")
           (Exn ValueError "Expecting value: line 1 column 1 (char 0)"));
    try reflexivity.
  intros safe_load Hyaml. discriminate Hyaml.
Defined.

Lemma build_requires_mapping_witness :
  ∃ d,
    Sample.petstore = PyDict d ∧
    (dict_get d "info" = None ∨ ∃ info, dict_get d "info" = Some (PyDict info)).
Proof.
  apply (build_requires_mapping (H:=Sample.packages) Sample.petstore
           "https://petstore.example.com/openapi.json"
           ("Petstore", Sample.petstore)).
  reflexivity.
Defined.

Lemma build_server_name_witness :
  _build_mcp_from_openapi (H:=Sample.packages)
    (PyDict [("paths", PyDict [])])
    "https://api.example.com/openapi.json" =
  Ok ("MCP from https://api.example.com", PyDict [("paths", PyDict [])]).
Proof.
  rewrite (proj2 (build_server_name (H:=Sample.packages)
                    [("paths", PyDict [])]
                    "https://api.example.com/openapi.json"
                    "https://api.example.com" "https://api.example.com"
                    eq_refl eq_refl)).
  - reflexivity.
  - by left.
Defined.

(* ===================================================================== *)
(** ** Further properties of [get_security_schemes_for_route]             *)
(* ===================================================================== *)

Lemma SchemaPath_open_app (contents : pyval) (parts parts' : list string) :
  SchemaPath_open contents (parts ++ parts') =
  rbind (SchemaPath_open contents parts)
    (λ found, SchemaPath_open found parts').
Proof.
  revert contents. induction parts as [|k parts IH]; intros contents; [done|].
  simpl. destruct contents as [ |b|z|m e|s|l|d]; try done.
  destruct (dict_get d k); [apply IH | done].
Qed.

(** X7: for a route whose operation the document describes by a mapping
    ([paths], the path item and the operation resolve, as they do for the
    routes the SDK derives from the document), the lookup returns: a
    missing [security], at either level, is no error. *)
Theorem security_schemes_of_operation (spec : SchemaPath) (route : HTTPRoute)
  (operation : pydict) :
  SchemaPath_open spec ["paths"; path route; lower (method route)] =
    Ok (PyDict operation) →
  ∃ schemes, get_security_schemes_for_route spec route = Ok schemes.
Proof.
  intros Hop. unfold get_security_schemes_for_route, operation_security_path.
  change ["paths"; path route; lower (method route); "security"]
    with (["paths"; path route; lower (method route)] ++ ["security"]).
  rewrite SchemaPath_open_app, Hop. simpl.
  destruct (dict_get operation "security"); [by eexists|]. simpl.
  destruct spec as [ |b|z|m e|s|l|d]; try done.
  destruct (dict_get d "security"); by eexists.
Qed.

Lemma security_schemes_of_operation_witness :
  ∃ schemes,
    get_security_schemes_for_route Sample.open_api
      {| path := "/ping"; method := "GET"; parameter_map := [];
         flat_param_schema := [] |} = Ok schemes.
Proof.
  apply (security_schemes_of_operation Sample.open_api
           {| path := "/ping"; method := "GET"; parameter_map := [];
              flat_param_schema := [] |}
           [("operationId", PyStr "ping")]).
  reflexivity.
Defined.

(* ===================================================================== *)
(** ** Further properties of [customize_components]                       *)
(* ===================================================================== *)

Lemma guarded_authorization_object (schema : pydict) :
  properties_is_object schema →
  guarded_authorization schema = Ok (authorized_schema schema).
Proof.
  unfold properties_is_object, guarded_authorization, authorized_schema,
    dict_setdefault.
  destruct (dict_get schema "properties") as [[ |b|z|m e|s|l|props]|];
    try done; intros _; simpl.
  by destruct (dict_contains props "Authorization").
Qed.

(** A schema on which the three lines raise had its [properties], and
    [setdefault] left it alone. *)
Lemma guarded_authorization_raise (schema : pydict) (e : exn) :
  guarded_authorization schema = Raise e →
  snd (dict_setdefault schema "properties" (PyDict [])) = schema ∧
  exn_type e = TypeError.
Proof.
  unfold guarded_authorization, dict_setdefault.
  destruct (dict_get schema "properties") as [[ |b|z|m e'|s|l|props]|];
    simpl; try (by intros [= <-]); repeat case_match; try done;
    by intros [= <-].
Qed.

(** What the three lines keep: the keys of the schema other than
    [properties], and every property the schema had. *)
Lemma guarded_authorization_keeps (schema schema' : pydict) :
  guarded_authorization schema = Ok schema' →
  (∀ k, k ≠ "properties" → dict_get schema' k = dict_get schema k) ∧
  (∀ k v, dict_get (properties_of schema) k = Some v →
          dict_get (properties_of schema') k = Some v).
Proof.
  unfold guarded_authorization, dict_setdefault, properties_of.
  destruct (dict_get schema "properties") as [[ |b|z|m e'|s|l|props]|] eqn:E;
    simpl; try done.
  - destruct (string_contains "Authorization" s); [|done].
    intros [= <-]. by rewrite E.
  - destruct (existsb _ l); [|done]. intros [= <-]. by rewrite E.
  - unfold dict_contains.
    destruct (dict_get props "Authorization") eqn:Ea; simpl; intros [= <-].
    + by rewrite E.
    + split; [intros k Hk; by rewrite dict_get_set_ne|].
      intros k v Hv. rewrite dict_get_set_eq.
      rewrite dict_get_set_ne; [done | congruence].
  - intros [= <-]. split; [|done].
    intros k Hk. by rewrite !dict_get_set_ne.
Qed.

Lemma authorized_map_keeps (pmap : pydict) (k : string) (v : pyval) :
  dict_get pmap k = Some v → dict_get (authorized_map pmap) k = Some v.
Proof.
  intros Hv. unfold authorized_map, dict_contains.
  destruct (dict_get pmap "Authorization") eqn:Ea; [done|].
  rewrite dict_get_set_ne; [done | congruence].
Qed.

(** The run of [customize_components] on a tool of a secured route, for
    every shape of the two schemas. *)
Lemma customize_components_tool_run (spec : SchemaPath) (route : HTTPRoute)
  (component : Component) (secured : gset string) :
  get_security_schemes_for_route spec route = Ok secured →
  secured ≠ ∅ →
  component_type component = OpenAPITool →
  customize_components spec (route, component) =
  match guarded_authorization (parameters_or_default component) with
  | Raise e => (Raise e, (route, tagged component))
  | Ok params =>
      let route1 :=
        set_parameter_map route (authorized_map (parameter_map route)) in
      match guarded_authorization (flat_param_schema route) with
      | Ok flat =>
          (Ok tt, (set_flat_param_schema route1 flat,
                   set_parameters (tagged component) params))
      | Raise e =>
          (Raise e,
           (set_flat_param_schema route1
              (snd (dict_setdefault (flat_param_schema route) "properties"
                      (PyDict []))),
            set_parameters (tagged component) params))
      end
  end.
Proof.
  intros Hs Hne Htool.
  run_mutator. rewrite Hs. mutator_step. case_decide; [done|].
  mutator_step. rewrite Htool. fold (parameters_or_default component).
  generalize (parameters_or_default component) as params.
  destruct route as [p m pmap flat]. simpl. intros params.
  unfold guarded_authorization, authorized_map, tagged.
  destruct (dict_setdefault params "properties" (PyDict []))
    as [props params1].
  destruct (py_contains props "Authorization") as [[|]|]; simpl;
    try reflexivity.
  - destruct (dict_contains pmap "Authorization"); simpl;
      destruct (dict_setdefault flat "properties" (PyDict []))
        as [fprops flat1]; simpl;
      destruct (py_contains fprops "Authorization") as [[|]|]; simpl;
      try reflexivity;
      destruct (py_setitem fprops "Authorization" AUTHORIZATION_SCHEMA);
      reflexivity.
  - destruct (py_setitem props "Authorization" AUTHORIZATION_SCHEMA); simpl;
      [|reflexivity].
    destruct (dict_contains pmap "Authorization"); simpl;
      destruct (dict_setdefault flat "properties" (PyDict []))
        as [fprops flat1]; simpl;
      destruct (py_contains fprops "Authorization") as [[|]|]; simpl;
      try reflexivity;
      destruct (py_setitem fprops "Authorization" AUTHORIZATION_SCHEMA);
      reflexivity.
Qed.

Lemma customize_components_lookup_raise (spec : SchemaPath)
  (route : HTTPRoute) (component : Component) (e : exn) :
  get_security_schemes_for_route spec route = Raise e →
  customize_components spec (route, component) =
  (Raise e, (route, tagged component)).
Proof. intros Hs. run_mutator. by rewrite Hs. Qed.

Lemma customize_components_other (spec : SchemaPath) (route : HTTPRoute)
  (component : Component) (secured : gset string) :
  get_security_schemes_for_route spec route = Ok secured →
  component_type component ≠ OpenAPITool →
  customize_components spec (route, component) =
  (Ok tt, (route, tagged component)).
Proof.
  intros Hs Hother. run_mutator. rewrite Hs. mutator_step.
  case_decide; [done|]. mutator_step.
  by destruct (component_type component).
Qed.

Lemma tool_or_other (component : Component) :
  component_type component = OpenAPITool ∨
  component_type component ≠ OpenAPITool.
Proof. destruct (component_type component); auto. Qed.

Lemma tagged_tagged (component : Component) :
  tagged (tagged component) = tagged component.
Proof.
  unfold tagged, set_tags. simpl. f_equal. set_solver.
Qed.

(** The lookup reads the path and the method of the route, nothing else. *)
Lemma security_schemes_same_operation (spec : SchemaPath)
  (route route' : HTTPRoute) :
  path route' = path route → method route' = method route →
  get_security_schemes_for_route spec route' =
  get_security_schemes_for_route spec route.
Proof.
  intros Hp Hm.
  unfold get_security_schemes_for_route, operation_security_path.
  by rewrite Hp, Hm.
Qed.

Lemma guarded_authorization_again (schema schema' : pydict) :
  guarded_authorization schema = Ok schema' →
  guarded_authorization schema' = Ok schema' ∧ schema' ≠ [].
Proof.
  unfold guarded_authorization at 1. unfold dict_setdefault.
  destruct (dict_get schema "properties") as [[ |b|z|m e'|s|l|props]|] eqn:E;
    simpl; try done.
  - destruct (string_contains "Authorization" s) eqn:Ec; [|done].
    intros [= <-]. split; [|by intros ->].
    unfold guarded_authorization, dict_setdefault. rewrite E. simpl.
    by rewrite Ec.
  - destruct (existsb _ l) eqn:Ec; [|done].
    intros [= <-]. split; [|by intros ->].
    unfold guarded_authorization, dict_setdefault. rewrite E. simpl.
    by rewrite Ec.
  - destruct (dict_contains props "Authorization") eqn:Ec; simpl;
      intros [= <-].
    + split; [|by intros ->].
      unfold guarded_authorization, dict_setdefault. rewrite E. simpl.
      by rewrite Ec.
    + split.
      * unfold guarded_authorization, dict_setdefault.
        rewrite dict_get_set_eq. simpl. unfold dict_contains.
        by rewrite dict_get_set_eq.
      * intros Hnil. apply (f_equal (λ s, dict_get s "properties")) in Hnil.
        by rewrite dict_get_set_eq in Hnil.
  - intros [= <-]. split.
    + unfold guarded_authorization, dict_setdefault.
      by rewrite dict_get_set_eq.
    + intros Hnil. apply (f_equal (λ s, dict_get s "properties")) in Hnil.
      by rewrite dict_get_set_eq in Hnil.
Qed.

Lemma authorized_map_again (pmap : pydict) :
  authorized_map (authorized_map pmap) = authorized_map pmap.
Proof.
  destruct (dict_contains pmap "Authorization") eqn:Ec;
    unfold authorized_map; rewrite Ec.
  - by rewrite Ec.
  - unfold dict_contains. by rewrite dict_get_set_eq.
Qed.

(** X8: whatever the route, the component and the outcome, the callback
    tags the component, keeps its class and the path and method of the
    route, and removes or overwrites no entry of the parameter map and no
    property of either schema. *)
Theorem customize_components_keeps (spec : SchemaPath) (route : HTTPRoute)
  (component : Component) :
  let out := customize_components spec (route, component) in
  let route' := fst (snd out) in
  let component' := snd (snd out) in
  tags component' = tags component ∪ {["openapi"]} ∧
  component_type component' = component_type component ∧
  path route' = path route ∧
  method route' = method route ∧
  (∀ k v, dict_get (parameter_map route) k = Some v →
          dict_get (parameter_map route') k = Some v) ∧
  (∀ k v, dict_get (properties_of (flat_param_schema route)) k = Some v →
          dict_get (properties_of (flat_param_schema route')) k = Some v) ∧
  (∀ k v, dict_get (properties_of (parameters component)) k = Some v →
          dict_get (properties_of (parameters component')) k = Some v).
Proof.
  intros out route' component'. subst route' component' out.
  destruct (get_security_schemes_for_route spec route) as [secured|e] eqn:Hs;
    [|by rewrite (customize_components_lookup_raise _ _ _ _ Hs)].
  destruct (decide (secured = ∅)) as [->|Hne];
    [by rewrite (customize_components_unsecured _ _ _ Hs)|].
  destruct (tool_or_other component) as [Htool|Hother];
    [|by rewrite (customize_components_other _ _ _ _ Hs Hother)].
  rewrite (customize_components_tool_run _ _ _ _ Hs Hne Htool).
  destruct (parameters_or_default_properties component) as [Hprops _].
  destruct (guarded_authorization (parameters_or_default component))
    as [params|e] eqn:Hp; [|done].
  apply guarded_authorization_keeps in Hp as [_ Hp].
  rewrite Hprops in Hp.
  destruct (guarded_authorization (flat_param_schema route))
    as [flat|e] eqn:Hf; simpl.
  - apply guarded_authorization_keeps in Hf as [_ Hf].
    repeat split; try done. intros k v. apply authorized_map_keeps.
  - apply guarded_authorization_raise in Hf as [-> _].
    repeat split; try done. intros k v. apply authorized_map_keeps.
Qed.

(** X9: a component that is no tool is only tagged, also on a secured
    route; and when the lookup of the schemes raises, the exception reaches
    the caller after the tag was added, the route untouched. *)
Theorem customize_components_only_tags (spec : SchemaPath)
  (route : HTTPRoute) (component : Component) :
  (∀ secured,
     get_security_schemes_for_route spec route = Ok secured →
     component_type component ≠ OpenAPITool →
     customize_components spec (route, component) =
     (Ok tt, (route, tagged component))) ∧
  (∀ e,
     get_security_schemes_for_route spec route = Raise e →
     customize_components spec (route, component) =
     (Raise e, (route, tagged component))).
Proof.
  split.
  - intros secured. apply customize_components_other.
  - intros e. apply customize_components_lookup_raise.
Qed.

(** X10: a run that returns has done all there is to do: running the
    callback again on the route and the component it left returns and
    changes nothing. *)
Theorem customize_components_idempotent (spec : SchemaPath)
  (route : HTTPRoute) (component : Component) :
  fst (customize_components spec (route, component)) = Ok tt →
  customize_components spec (snd (customize_components spec (route, component))) =
  customize_components spec (route, component).
Proof.
  destruct (get_security_schemes_for_route spec route) as [secured|e] eqn:Hs;
    [|by rewrite (customize_components_lookup_raise _ _ _ _ Hs)].
  destruct (decide (secured = ∅)) as [->|Hne].
  { rewrite (customize_components_unsecured _ _ _ Hs). intros _. simpl.
    rewrite (customize_components_unsecured _ _ _ Hs). fold (tagged component).
    fold (tagged (tagged component)). by rewrite tagged_tagged. }
  destruct (tool_or_other component) as [Htool|Hother].
  2: { rewrite (customize_components_other _ _ _ _ Hs Hother). intros _. simpl.
       rewrite (customize_components_other spec route (tagged component)
                  secured Hs Hother).
       by rewrite tagged_tagged. }
  rewrite (customize_components_tool_run _ _ _ _ Hs Hne Htool).
  destruct (guarded_authorization (parameters_or_default component))
    as [params|e] eqn:Hp; [|done].
  destruct (guarded_authorization (flat_param_schema route))
    as [flat|e] eqn:Hf; [|done].
  intros _. simpl.
  apply guarded_authorization_again in Hp as [Hp Hparams].
  apply guarded_authorization_again in Hf as [Hf _].
  erewrite customize_components_tool_run; [| |done|done].
  2: { rewrite <- Hs. by apply security_schemes_same_operation. }
  assert (Hdefault :
    parameters_or_default (set_parameters (tagged component) params) = params).
  { unfold parameters_or_default. simpl. by destruct params. }
  rewrite Hdefault, Hp. simpl. rewrite Hf.
  rewrite authorized_map_again.
  destruct route, component. unfold set_parameters, set_flat_param_schema,
    set_parameter_map, tagged, set_tags. simpl.
  do 3 f_equal. set_solver.
Qed.

(** X11: the update is not atomic.  When the [properties] of the tool's
    schema is [null], the callback raises a [TypeError] with nothing but
    the tag written; when the tool's schema is sound and the [properties]
    of the route's flat schema is [null], it raises after the tool's schema
    and the parameter map received [Authorization], the flat schema left
    as it was. *)
Theorem customize_components_malformed (spec : SchemaPath) (route : HTTPRoute)
  (component : Component) (secured : gset string) :
  get_security_schemes_for_route spec route = Ok secured →
  secured ≠ ∅ →
  component_type component = OpenAPITool →
  (dict_get (parameters component) "properties" = Some PyNone →
     ∃ e,
       exn_type e = TypeError ∧
       customize_components spec (route, component) =
       (Raise e, (route, tagged component))) ∧
  (properties_is_object (parameters component) →
   dict_get (flat_param_schema route) "properties" = Some PyNone →
     ∃ e,
       exn_type e = TypeError ∧
       customize_components spec (route, component) =
       (Raise e,
        (set_parameter_map route (authorized_map (parameter_map route)),
         set_parameters (tagged component)
           (authorized_schema (parameters_or_default component))))).
Proof.
  intros Hs Hne Htool.
  rewrite (customize_components_tool_run _ _ _ _ Hs Hne Htool). split.
  - intros Hnull.
    assert (Hdefault : parameters_or_default component = parameters component).
    { unfold parameters_or_default. by destruct (parameters component). }
    rewrite Hdefault. unfold guarded_authorization, dict_setdefault.
    rewrite Hnull. simpl. eexists. split; [|reflexivity]. done.
  - intros Hparams Hnull.
    apply parameters_or_default_properties in Hparams.
    rewrite (guarded_authorization_object _ Hparams).
    unfold guarded_authorization, dict_setdefault. rewrite Hnull. simpl.
    eexists. split; [|by destruct route]. done.
Qed.

Lemma customize_components_only_tags_witness :
  customize_components Sample.petstore
    (Sample.route "GET" Sample.limit_map Sample.limit_schema,
     {| component_type := OpenAPIResource; tags := ∅;
        parameters := Sample.limit_schema |}) =
  (Ok tt,
   (Sample.route "GET" Sample.limit_map Sample.limit_schema,
    {| component_type := OpenAPIResource; tags := {["openapi"]};
       parameters := Sample.limit_schema |})).
Proof.
  rewrite (proj1 (customize_components_only_tags Sample.petstore
                    (Sample.route "GET" Sample.limit_map Sample.limit_schema)
                    {| component_type := OpenAPIResource; tags := ∅;
                       parameters := Sample.limit_schema |})
             {["bearerAuth"]} eq_refl);
    [|discriminate].
  reflexivity.
Defined.

Lemma customize_components_idempotent_witness :
  customize_components Sample.petstore
    (snd (customize_components Sample.petstore
            (Sample.route "GET" Sample.limit_map Sample.limit_schema,
             Sample.tool []))) =
  customize_components Sample.petstore
    (Sample.route "GET" Sample.limit_map Sample.limit_schema, Sample.tool []).
Proof.
  apply customize_components_idempotent. reflexivity.
Defined.

Lemma customize_components_malformed_witness :
  ∃ e,
    exn_type e = TypeError ∧
    customize_components Sample.petstore
      (Sample.route "GET" Sample.limit_map Sample.null_schema,
       Sample.tool Sample.limit_schema) =
    (Raise e,
     (set_parameter_map
        (Sample.route "GET" Sample.limit_map Sample.null_schema)
        (authorized_map Sample.limit_map),
      set_parameters (tagged (Sample.tool Sample.limit_schema))
        (authorized_schema
           (parameters_or_default (Sample.tool Sample.limit_schema))))).
Proof.
  apply (proj2 (customize_components_malformed Sample.petstore
                  (Sample.route "GET" Sample.limit_map Sample.null_schema)
                  (Sample.tool Sample.limit_schema) {["bearerAuth"]}
                  eq_refl ltac:(set_solver) eq_refl));
    [exact I | reflexivity].
Defined.

(* ===================================================================== *)
(** ** Further properties of runs of requests                             *)
(* ===================================================================== *)

Section RunProperties.
Context `{Packages}.

(** One request either changes nothing and returns no identifier, or
    mounts and registers one server under the identifier it returns. *)
Lemma serve_cases (c : Call) (app : App) :
  (registers c = false ∧
   snd (serve c app) = app ∧
   reply_server_id (fst (serve c app)) = None) ∨
  (∃ id server,
     registers c = true ∧
     drawn_id c = Some id ∧
     reply_server_id (fst (serve c app)) = Some id ∧
     snd (serve c app) =
       register (app_mount app ("/mcp/" +:+ id) (http_app server "/")) id
         {| mount_path := "/mcp/" +:+ id; mcp := server |}).
Proof.
  destruct c as [w request openapi_url|]; simpl; [|by left].
  destruct (fetch_openapi_spec w openapi_url) as [openapi_spec|e] eqn:Hf;
    [|left; by rewrite (generate_fetch_error _ _ _ _ _ Hf)].
  destruct (_build_mcp_from_openapi openapi_spec openapi_url)
    as [server|e] eqn:Hb;
    [|left; by rewrite (generate_build_error _ _ _ _ _ _ Hf Hb)].
  right. rewrite (generate_built _ _ _ _ _ _ Hf Hb). by eexists _, _.
Qed.

Lemma registered_is_mounted_step (c : Call) (app : App) :
  registered_is_mounted app → registered_is_mounted (snd (serve c app)).
Proof.
  intros Hinv.
  destruct (serve_cases c app)
    as [(_ & -> & _)|(id & server & _ & _ & _ & ->)]; [done|].
  intros id' entry. simpl. rewrite lookup_insert_Some.
  intros [[<- <-]|[_ Hold]]; simpl.
  - split; [done|]. set_solver.
  - destruct (Hinv _ _ Hold) as [Hpath Hin]. split; [done|]. set_solver.
Qed.

(** X12: every entry of the registry is mounted: from the state at
    import, and from any state where this holds, after every run of
    requests each registered server is in the list of mounts, at the path
    its entry records, which is [/mcp/] followed by its identifier. *)
Theorem registered_stays_mounted (cs : list Call) (app : App) :
  registered_is_mounted initial_app ∧
  (registered_is_mounted app →
   registered_is_mounted (snd (serve_all cs app))).
Proof.
  split; [by intros id entry|].
  revert app. induction cs as [|c cs IH]; intros app Hinv; [done|].
  rewrite serve_all_cons. simpl. by apply IH, registered_is_mounted_step.
Qed.

(** X13: the list of mounts only grows at its end: after a run it is the
    list of before followed by one mount for each identifier returned, in
    the order of the replies, at [/mcp/] followed by that identifier. *)
Theorem mounts_append_only (cs : list Call) (app : App) :
  ∃ new,
    mounts (snd (serve_all cs app)) = mounts app ++ new ∧
    new.*1 = (λ id, "/mcp/" +:+ id) <$> served_ids (fst (serve_all cs app)).
Proof.
  revert app. induction cs as [|c cs IH]; intros app.
  { exists []. by rewrite app_nil_r. }
  rewrite serve_all_cons. simpl. unfold served_ids. simpl.
  fold (served_ids (fst (serve_all cs (snd (serve c app))))).
  destruct (serve_cases c app)
    as [(_ & Hstate & Hid)|(id & server & _ & _ & Hid & Hstate)];
    rewrite Hid, Hstate.
  - apply IH.
  - destruct (IH (register
                    (app_mount app ("/mcp/" +:+ id) (http_app server "/")) id
                    {| mount_path := "/mcp/" +:+ id; mcp := server |}))
      as (new & Hmounts & Hnew).
    exists (("/mcp/" +:+ id, http_app server "/") :: new).
    rewrite Hmounts. split.
    + simpl. by rewrite <- app_assoc.
    + rewrite !fmap_cons. by rewrite Hnew.
Qed.

(** X14: after a run the registry holds the identifiers it held before
    and the identifiers the run returned, and no other. *)
Theorem registry_domain (cs : list Call) (app : App) :
  dom (RUNNING_SERVERS (snd (serve_all cs app))) =
  dom (RUNNING_SERVERS app) ∪ list_to_set (served_ids (fst (serve_all cs app))).
Proof.
  revert app. induction cs as [|c cs IH]; intros app.
  { simpl. set_solver. }
  rewrite serve_all_cons. simpl. rewrite IH.
  unfold served_ids. simpl.
  fold (served_ids (fst (serve_all cs (snd (serve c app))))).
  destruct (serve_cases c app)
    as [(_ & Hstate & Hid)|(id & server & _ & _ & Hid & Hstate)];
    rewrite Hid, Hstate; [done|].
  simpl. rewrite dom_insert_L. set_solver.
Qed.

Lemma serve_reply_stateless (c : Call) (app app' : App) :
  fst (serve c app) = fst (serve c app').
Proof.
  destruct c as [w request openapi_url|]; simpl; [|done].
  unfold generate.
  destruct (fetch_openapi_spec w openapi_url) as [openapi_spec|]; [|done].
  by destruct (_build_mcp_from_openapi openapi_spec openapi_url).
Qed.

(** X15: the replies of a run do not depend on the state it starts
    from: what a request is answered is decided by the request, the network
    and the bytes drawn, not by the requests served before. *)
Theorem replies_stateless (cs : list Call) (app app' : App) :
  fst (serve_all cs app) = fst (serve_all cs app').
Proof.
  revert app app'. induction cs as [|c cs IH]; intros app app'; [done|].
  rewrite !serve_all_cons. simpl. f_equal; [apply serve_reply_stateless|].
  apply IH.
Qed.

(** X16: health checks and failed calls of [generate] leave no trace: the
    state after a run is the state after the calls of it that reach the
    mount, served alone. *)
Theorem failed_calls_leave_no_trace (cs : list Call) (app : App) :
  snd (serve_all cs app) = snd (serve_all (List.filter registers cs) app).
Proof.
  revert app. induction cs as [|c cs IH]; intros app; [done|].
  rewrite serve_all_cons. simpl.
  destruct (serve_cases c app)
    as [(-> & -> & _)|(id & server & -> & _ & _ & Hstep)].
  - apply IH.
  - rewrite serve_all_cons. simpl. apply IH.
Qed.

End RunProperties.

Lemma registered_stays_mounted_witness :
  registered_is_mounted (H:=Sample.packages)
    (snd (serve_all (H:=Sample.packages)
            [GetGenerate (Sample.world Sample.petstore [x00; x0a; xff; x10])
               Sample.request "https://petstore.example.com/openapi.json";
             GetHealth;
             GetGenerate (Sample.world Sample.open_api [x00; x0a; xff; x10])
               Sample.request "https://api.example.com/openapi.json"]
            initial_app)).
Proof.
  apply (proj2 (registered_stays_mounted (H:=Sample.packages) _ initial_app)).
  apply (proj1 (registered_stays_mounted (H:=Sample.packages) [] initial_app)).
Defined.

(* ===================================================================== *)
(** ** The identifiers                                                    *)
(* ===================================================================== *)

Lemma hex_of_byte_lower (b : byte) :
  string_forall is_lower_hex (hex_of_byte b) = true.
Proof. by destruct b. Qed.

Lemma unhexlify_hex_of_byte (b : byte) (s : string) :
  unhexlify (hex_of_byte b +:+ s) =
  match unhexlify s with Some bs => Some (b :: bs) | None => None end.
Proof. by destruct b. Qed.

Lemma unhexlify_hexlify (bs : list byte) : unhexlify (hexlify bs) = Some bs.
Proof.
  induction bs as [|b bs IH]; [done|].
  change (hexlify (b :: bs)) with (hex_of_byte b +:+ hexlify bs).
  by rewrite unhexlify_hex_of_byte, IH.
Qed.

Lemma hexlify_lower (bs : list byte) :
  string_forall is_lower_hex (hexlify bs) = true ∧
  String.length (hexlify bs) = (2 * length bs)%nat.
Proof.
  induction bs as [|b bs [IHhex IHlen]]; [done|].
  change (hexlify (b :: bs)) with (hex_of_byte b +:+ hexlify bs).
  pose proof (hex_of_byte_lower b) as Hb. unfold hex_of_byte in *.
  rewrite !string_app_cons, string_app_nil_l.
  cbn [string_forall String.length] in *.
  apply andb_prop in Hb as [-> Hb]. apply andb_prop in Hb as [-> _].
  rewrite IHhex, IHlen. split; [done | simpl; lia].
Qed.

Section Identifiers.
Context `{Packages}.

(** X17: two calls of [generate] draw the same identifier exactly when
    [secrets] hands them the same bytes: the hexadecimal rendering loses
    nothing. *)
Theorem drawn_id_bytes (w1 w2 : World) (request1 request2 : Request)
  (url1 url2 : string) :
  drawn_id (GetGenerate w1 request1 url1) =
  drawn_id (GetGenerate w2 request2 url2) ↔
  token_bytes w1 4 = token_bytes w2 4.
Proof.
  simpl. unfold token_hex. split; [|by intros ->].
  intros [= Hhex]. rewrite !string_app_nil_l in Hhex.
  apply (f_equal unhexlify) in Hhex.
  rewrite !unhexlify_hexlify in Hhex. by injection Hhex.
Qed.

(** X18: an identifier [generate] returns is [srv-] followed by lower-case
    hexadecimal digits, two for each byte drawn. *)
Theorem server_id_format (w : World) (request : Request)
  (openapi_url : string) (app : App) (server_id : string) :
  reply_server_id (fst (generate w request openapi_url app)) =
    Some server_id →
  ∃ digits,
    server_id = "srv-" +:+ digits ∧
    string_forall is_lower_hex digits = true ∧
    String.length digits = (2 * length (token_bytes w 4))%nat.
Proof.
  destruct (fetch_openapi_spec w openapi_url) as [openapi_spec|e] eqn:Hf;
    [|by rewrite (generate_fetch_error _ _ _ _ _ Hf)].
  destruct (_build_mcp_from_openapi openapi_spec openapi_url)
    as [server|e] eqn:Hb;
    [|by rewrite (generate_build_error _ _ _ _ _ _ Hf Hb)].
  rewrite (generate_built _ _ _ _ _ _ Hf Hb). simpl. intros [= <-].
  exists (token_hex w 4). split; [done|]. apply hexlify_lower.
Qed.

End Identifiers.

Lemma server_id_format_witness :
  ∃ digits,
    "srv-000aff10" = "srv-" +:+ digits ∧
    string_forall is_lower_hex digits = true ∧
    String.length digits = 8%nat.
Proof.
  apply (server_id_format (H:=Sample.packages)
           (Sample.world Sample.petstore [x00; x0a; xff; x10]) Sample.request
           "https://petstore.example.com/openapi.json" initial_app).
  reflexivity.
Defined.

Lemma customize_components_keeps_witness :
  dict_get
    (parameter_map
       (fst (snd (customize_components Sample.petstore
                    (Sample.route "GET" Sample.clash_map Sample.clash_schema,
                     Sample.tool Sample.clash_schema)))))
    "Authorization" =
  Some (PyDict [("location", PyStr "query");
                ("openapi_name", PyStr "Authorization")]).
Proof.
  destruct (customize_components_keeps Sample.petstore
              (Sample.route "GET" Sample.clash_map Sample.clash_schema)
              (Sample.tool Sample.clash_schema))
    as (_ & _ & _ & _ & Hmap & _).
  apply Hmap. reflexivity.
Defined.

Lemma drawn_id_bytes_witness :
  drawn_id (H:=Sample.packages)
    (GetGenerate (Sample.world Sample.petstore [x00; x0a; xff; x10])
       Sample.request "https://petstore.example.com/openapi.json") =
  drawn_id (H:=Sample.packages)
    (GetGenerate (Sample.world Sample.open_api [x00; x0a; xff; x10])
       Sample.request "https://api.example.com/openapi.json").
Proof.
  apply (proj2 (drawn_id_bytes (H:=Sample.packages) _ _ _ _ _ _)).
  reflexivity.
Defined.
